(** * Microsoft Graph Toolkit (beta): the planner gateway and the to-do component

    A shallow embedding of
    - the planner request wrappers (graph.planner: [deletePlannerTask],
      [createPlannerTask], [updatePlannerTask], the [get...] readers),
    - the shared base of the task components ([MgtTasksBase.addTask]),
    - the to-do component ([MgtTodo]: [render], [updateTaskStatus],
      [removeTask], [addTask], [handleTaskCheckClick], [hideNewTaskPanel]),
    - the rest of the to-do component ([loadState], [loadTaskList],
      [renderHeader], [renderNewTaskPanel], [renderTask], [handleTaskClick],
      the [isNewTaskVisible] property) and the planner's [createNewTask],
    followed by the properties of the view-state reconciliation.

    Asynchronous methods are split at their [await]: a [_begin] function is
    the synchronous prefix that runs when the method is called, a [_resume]
    function is the continuation that runs when the awaited gateway call
    settles.  Task objects live in a store and are referred to by location,
    because [updateTaskStatus] writes to the very object that [_tasks] holds. *)

From Stdlib Require Import String List Bool ZArith Lia.
From stdpp Require Import base option list strings gmap.
Import ListNotations.
Open Scope string_scope.
Open Scope list_scope.

(** ** Shared vocabulary *)

(** How a promise settles. *)
Inductive Error := TypeError | GatewayError.

Inductive Settled (A : Type) :=
| Fulfilled (a : A)
| Rejected (e : Error).
Arguments Fulfilled {A} a.
Arguments Rejected {A} e.

(** ** The request builder of the graph client *)

Module Graph.

Inductive Method := GET | POST | PATCH | DELETE.

(** The options handed to [middlewareOptions]. *)
Record MiddlewareOptions := { scopes : list string }.

(** Modelled from the spec: [prepScopes] of utils/GraphHelpers, which is not
    among the sources.  The scope names it is given become the capability
    scope attached to the request. *)
Definition prepScopes (names : list string) : MiddlewareOptions :=
  {| scopes := names |}.

(** A request under construction: [graph.api(path)] followed by the chained
    [header] and [middlewareOptions] calls. *)
Record GraphRequest := {
  path : string;
  headers : gmap string string;
  options : option MiddlewareOptions
}.

Definition api (p : string) : GraphRequest :=
  {| path := p; headers := ∅; options := None |}.

Definition header (name value : string) (r : GraphRequest) : GraphRequest :=
  {| path := path r; headers := <[name := value]> (headers r); options := options r |}.

Definition middlewareOptions (o : MiddlewareOptions) (r : GraphRequest) : GraphRequest :=
  {| path := path r; headers := headers r; options := Some o |}.

(** A request sent with one of the four verbs; [B] is the type of bodies. *)
Record Call (B : Type) := {
  request : GraphRequest;
  method : Method;
  body : option B
}.
Arguments request {B} c.
Arguments method {B} c.
Arguments body {B} c.

Definition get {B} (r : GraphRequest) : Call B :=
  {| request := r; method := GET; body := None |}.
Definition delete {B} (r : GraphRequest) : Call B :=
  {| request := r; method := DELETE; body := None |}.
Definition post {B} (b : B) (r : GraphRequest) : Call B :=
  {| request := r; method := POST; body := Some b |}.
Definition patch {B} (b : B) (r : GraphRequest) : Call B :=
  {| request := r; method := PATCH; body := Some b |}.

(** The scopes a sent call carries ([[]] when none were attached). *)
Definition scopesOf {B} (c : Call B) : list string :=
  match options (request c) with
  | Some o => scopes o
  | None => []
  end.

End Graph.

(** ** graph.planner: the planner gateway *)

Module GraphPlanner.
Import Graph.

Inductive TaskStatus :=
| notStarted
| inProgress
| completed
| deferred
| waitingOnOthers.

Section Gateway.
(** [GraphTypes.PlannerTask] and the payload of [assignPeopleToTask] come
    from the graph type package; [JSON.stringify] is the host's. *)
Variable PlannerTask : Type.
Variable People : Type.
Variable withAssignments : People -> PlannerTask.
Variable JSON_stringify : PlannerTask -> string.

(** What a call carries: an object ([post]) or its JSON text ([patch]). *)
Inductive Body :=
| ObjectBody (t : PlannerTask)
| TextBody (s : string).

Definition deletePlannerTask (taskId : string) : Call Body :=
  delete
    (middlewareOptions (prepScopes ["Group.ReadWrite.All"])
       (header "Cache-Control" "no-store"
          (api ("/planner/tasks/" +:+ taskId)))).

Definition createPlannerTask (taskData : PlannerTask) : Call Body :=
  post (ObjectBody taskData)
    (middlewareOptions (prepScopes ["Group.ReadWrite.All"])
       (header "Cache-Control" "no-store"
          (api "/planner/tasks"))).

Definition updatePlannerTask (taskId : string) (details : PlannerTask) : Call Body :=
  patch (TextBody (JSON_stringify details))
    (middlewareOptions (prepScopes ["Group.ReadWrite.All"])
       (header "Cache-Control" "no-store"
          (api ("/planner/tasks/" +:+ taskId)))).

Definition assignPeopleToTask (taskId : string) (people : People) : Call Body :=
  updatePlannerTask taskId (withAssignments people).

Definition getPlannerPlan (planId : string) : Call Body :=
  get
    (middlewareOptions (prepScopes ["Group.Read.All"])
       (header "Cache-Control" "no-store"
          (api ("/planner/plans/" +:+ planId)))).

Definition getMyPlannerPlans : Call Body :=
  get
    (middlewareOptions (prepScopes ["Group.Read.All"])
       (header "Cache-Control" "no-store"
          (api "/me/planner/plans"))).

Definition getPlannerBucket (planId bucketId : string) : Call Body :=
  get
    (middlewareOptions (prepScopes ["Group.Read.All"])
       (header "Cache-Control" "no-store"
          (api ("/planner/plans/" +:+ planId +:+ "/buckets/" +:+ bucketId)))).

Definition getPlannerBuckets (planId : string) : Call Body :=
  get
    (middlewareOptions (prepScopes ["Group.Read.All"])
       (header "Cache-Control" "no-store"
          (api ("/planner/plans/" +:+ planId +:+ "/buckets")))).

Definition getPlannerTasks (bucketId : string) : Call Body :=
  get
    (middlewareOptions (prepScopes ["Group.Read.All"])
       (header "Cache-Control" "no-store"
          (api ("/planner/buckets/" +:+ bucketId +:+ "/tasks")))).

(** The exported operations, one constructor per function with its
    arguments, and the call each one sends. *)
Inductive Operation :=
| DeletePlannerTask (taskId : string)
| CreatePlannerTask (taskData : PlannerTask)
| AssignPeopleToTask (taskId : string) (people : People)
| UpdatePlannerTask (taskId : string) (details : PlannerTask)
| GetPlannerPlan (planId : string)
| GetMyPlannerPlans
| GetPlannerBucket (planId bucketId : string)
| GetPlannerBuckets (planId : string)
| GetPlannerTasks (bucketId : string).

Definition send (op : Operation) : Call Body :=
  match op with
  | DeletePlannerTask taskId => deletePlannerTask taskId
  | CreatePlannerTask taskData => createPlannerTask taskData
  | AssignPeopleToTask taskId people => assignPeopleToTask taskId people
  | UpdatePlannerTask taskId details => updatePlannerTask taskId details
  | GetPlannerPlan planId => getPlannerPlan planId
  | GetMyPlannerPlans => getMyPlannerPlans
  | GetPlannerBucket planId bucketId => getPlannerBucket planId bucketId
  | GetPlannerBuckets planId => getPlannerBuckets planId
  | GetPlannerTasks bucketId => getPlannerTasks bucketId
  end.

(** The scope a verb calls for: reading for [GET], writing for the rest. *)
Definition requiredScope (m : Method) : string :=
  match m with
  | GET => "Group.Read.All"
  | POST | PATCH | DELETE => "Group.ReadWrite.All"
  end.

(** The kind of each operation as the gateway's interface names it. *)
Inductive Kind := ListKind | GetKind | CreateKind | UpdateKind | DeleteKind.

Definition kind (op : Operation) : Kind :=
  match op with
  | DeletePlannerTask _ => DeleteKind
  | CreatePlannerTask _ => CreateKind
  | AssignPeopleToTask _ _ => UpdateKind
  | UpdatePlannerTask _ _ => UpdateKind
  | GetPlannerPlan _ => GetKind
  | GetMyPlannerPlans => ListKind
  | GetPlannerBucket _ _ => GetKind
  | GetPlannerBuckets _ => ListKind
  | GetPlannerTasks _ => ListKind
  end.

Definition readOnlyKind (k : Kind) : bool :=
  match k with
  | ListKind | GetKind => true
  | CreateKind | UpdateKind | DeleteKind => false
  end.
End Gateway.

Arguments ObjectBody {PlannerTask} t.
Arguments TextBody {PlannerTask} s.
End GraphPlanner.

(** ** mgt-tasks-base: the part shared by the task components *)

Module MgtTasksBase.

(** The fields of the abstract base class. *)
Record Component := {
  readOnly : bool;
  hideHeader : bool;
  hideOptions : bool;
  isNewTaskBeingAdded : bool;
  _isNewTaskVisible : bool;
  _newTaskName : string
}.

(** The base component with what it has asked of its surroundings:
    [requestUpdate()] calls and invocations of the subclass hook
    [createNewTask()], the only place a subclass can reach the gateway from. *)
Record World := {
  self : Component;
  updates : nat;
  creations : nat
}.

(** Where an [addTask] call stands. *)
Inductive Phase :=
| Finished
| AwaitsUpdate
| AwaitsCreate.

Definition set_isNewTaskBeingAdded (b : bool) (c : Component) : Component :=
  {| readOnly := readOnly c; hideHeader := hideHeader c; hideOptions := hideOptions c;
     isNewTaskBeingAdded := b;
     _isNewTaskVisible := _isNewTaskVisible c; _newTaskName := _newTaskName c |}.

Definition clearNewTaskData (c : Component) : Component :=
  {| readOnly := readOnly c; hideHeader := hideHeader c; hideOptions := hideOptions c;
     isNewTaskBeingAdded := isNewTaskBeingAdded c;
     _isNewTaskVisible := _isNewTaskVisible c; _newTaskName := "" |}.

(** The [isNewTaskVisible] setter. *)
Definition set_isNewTaskVisible (value : bool) (c : Component) : Component :=
  if negb (Bool.eqb value (_isNewTaskVisible c)) then
    let c1 :=
      {| readOnly := readOnly c; hideHeader := hideHeader c; hideOptions := hideOptions c;
         isNewTaskBeingAdded := isNewTaskBeingAdded c;
         _isNewTaskVisible := value; _newTaskName := _newTaskName c |} in
    if negb value then clearNewTaskData c1 else c1
  else c.

Definition onSelf (f : Component -> Component) (w : World) : World :=
  {| self := f (self w); updates := updates w; creations := creations w |}.

Definition requestUpdate (w : World) : World :=
  {| self := self w; updates := S (updates w); creations := creations w |}.

Definition createNewTask (w : World) : World :=
  {| self := self w; updates := updates w; creations := S (creations w) |}.

(** [addTask], up to [await this.requestUpdate()]. *)
Definition addTask_begin (w : World) : World * Phase :=
  if isNewTaskBeingAdded (self w) || (_newTaskName (self w) =? "") then
    (w, Finished)
  else
    (requestUpdate (onSelf (set_isNewTaskBeingAdded true) w), AwaitsUpdate).

(** [addTask], from the update to [await this.createNewTask()]. *)
Definition addTask_create (w : World) : World * Phase :=
  (createNewTask w, AwaitsCreate).

(** [addTask], the [finally] block, run however [createNewTask] settled. *)
Definition addTask_finally (w : World) (r : Settled unit) : World * Settled unit :=
  (requestUpdate
     (onSelf (set_isNewTaskVisible false)
        (onSelf (set_isNewTaskBeingAdded false) w)), r).

End MgtTasksBase.

(** ** graph.todo: the records the to-do component works on *)

Module TodoTaskList.
Record t := { id : string; displayName : string }.
End TodoTaskList.

Module TaskStatus.
Export GraphPlanner.

(** graph.todo is not among the sources; its [TaskStatus] is taken to be the
    numeric enum that graph.planner declares, with the same five members. *)
Definition number (m : TaskStatus) : Z :=
  match m with
  | notStarted => 0
  | inProgress => 1
  | completed => 2
  | deferred => 3
  | waitingOnOthers => 4
  end%Z.

Definition name (m : TaskStatus) : string :=
  match m with
  | notStarted => "notStarted"
  | inProgress => "inProgress"
  | completed => "completed"
  | deferred => "deferred"
  | waitingOnOthers => "waitingOnOthers"
  end.

Definition members : list TaskStatus :=
  [notStarted; inProgress; completed; deferred; waitingOnOthers].

(** What a task's [status] field holds at run time: the member's name, as
    the service sends it, or a member of the enum, as [updateTaskStatus]
    assigns it. *)
Inductive Value :=
| Name (s : string)
| Member (m : TaskStatus).

(** What indexing the enum object yields: a numeric enum maps each name to
    its number and each number back to its name. *)
Inductive Entry :=
| NumberEntry (n : Z)
| NameEntry (s : string)
| Undefined.

Definition ofName (s : string) : option TaskStatus :=
  List.find (fun m => name m =? s) members.

(** The decimal key of a member's number, the key of its reverse entry. *)
Definition key (m : TaskStatus) : string :=
  match m with
  | notStarted => "0"
  | inProgress => "1"
  | completed => "2"
  | deferred => "3"
  | waitingOnOthers => "4"
  end.

Definition ofKey (s : string) : option TaskStatus :=
  List.find (fun m => key m =? s) members.

(** [(TaskStatus as any)[v]] *)
Definition index (v : Value) : Entry :=
  match v with
  | Member m => NameEntry (name m)
  | Name s =>
      match ofName s with
      | Some m => NumberEntry (number m)
      | None =>
          match ofKey s with
          | Some m => NameEntry (name m)
          | None => Undefined
          end
      end
  end.

(** [(TaskStatus as any)[v] === TaskStatus.completed] *)
Definition isCompleted (v : Value) : bool :=
  match index v with
  | NumberEntry n => Z.eqb n (number completed)
  | NameEntry _ => false
  | Undefined => false
  end.

(** The member a stored value stands for, in either form. *)
Definition denotes (v : Value) : option TaskStatus :=
  match v with
  | Name s => ofName s
  | Member m => Some m
  end.

End TaskStatus.

Module TodoTask.
Record t := {
  id : string;
  title : string;
  status : TaskStatus.Value;
  dueDateTime : option string
}.

(** [task.status = s] on a copy of the record; the store puts it back in
    place. *)
Definition withStatus (s : TaskStatus.Value) (x : t) : t :=
  {| id := id x; title := title x; status := s; dueDateTime := dueDateTime x |}.
End TodoTask.

(** ** mgt-todo: the to-do component *)

Module MgtTodo.
Import TaskStatus.

(** A location in the store of task objects: the identity of an object. *)
Abbreviation loc := nat.

(** The fields of the component ([_graph] and [previousMediaQuery] play no
    part in what follows and are left out).  [_tasks] is [None] while
    [loadTaskList] has set it to [null]. *)
Record Component := {
  readOnly : bool;
  targetId : string;
  initialId : string;
  hideHeader : bool;
  hideOptions : bool;
  taskFilter : option (TodoTask.t -> bool);
  _isNewTaskVisible : bool;
  _newTaskBeingAdded : bool;
  _lists : list TodoTaskList.t;
  _tasks : option (list loc);
  _hiddenTasks : list string;
  _loadingTasks : list string;
  _hasDoneInitialLoad : bool;
  _currentList : option TodoTaskList.t;
  _isLoadingTasks : bool;
  _newTaskName : string;
  _newTaskDueDate : option Z;
  _newTaskListId : string
}.

(** The calls the component makes on the to-do gateway. *)
Inductive GatewayCall :=
| updateTodoTask (listId taskId : string) (task : loc)
| deleteTodoTask (listId taskId : string)
| createTodoTask (listId title : string).

(** The component together with what it shares with its surroundings: the
    task objects, the gateway calls issued so far (oldest first) and the
    number of [requestStateUpdate()] calls. *)
Record World := {
  self : Component;
  store : list TodoTask.t;
  calls : list GatewayCall;
  stateUpdates : nat
}.

(** Where an asynchronous method stands when control comes back to the
    caller. *)
Inductive Step :=
| Returned
| Threw (e : Error)
| Awaits (c : GatewayCall).

(** The browser event handed to a click handler. *)
Record Event := {
  propagationStopped : bool;
  defaultPrevented : bool
}.

Definition stopPropagation (e : Event) : Event :=
  {| propagationStopped := true; defaultPrevented := defaultPrevented e |}.

Definition preventDefault (e : Event) : Event :=
  {| propagationStopped := propagationStopped e; defaultPrevented := true |}.

(** *** Assignments to fields *)

Definition set_isNewTaskVisible (v : bool) (c : Component) : Component :=
  {| readOnly := readOnly c; targetId := targetId c; initialId := initialId c;
     hideHeader := hideHeader c; hideOptions := hideOptions c; taskFilter := taskFilter c;
     _isNewTaskVisible := v;
     _newTaskBeingAdded := _newTaskBeingAdded c; _lists := _lists c; _tasks := _tasks c;
     _hiddenTasks := _hiddenTasks c; _loadingTasks := _loadingTasks c;
     _hasDoneInitialLoad := _hasDoneInitialLoad c; _currentList := _currentList c;
     _isLoadingTasks := _isLoadingTasks c; _newTaskName := _newTaskName c;
     _newTaskDueDate := _newTaskDueDate c; _newTaskListId := _newTaskListId c |}.

Definition set_newTaskBeingAdded (v : bool) (c : Component) : Component :=
  {| readOnly := readOnly c; targetId := targetId c; initialId := initialId c;
     hideHeader := hideHeader c; hideOptions := hideOptions c; taskFilter := taskFilter c;
     _isNewTaskVisible := _isNewTaskVisible c;
     _newTaskBeingAdded := v;
     _lists := _lists c; _tasks := _tasks c;
     _hiddenTasks := _hiddenTasks c; _loadingTasks := _loadingTasks c;
     _hasDoneInitialLoad := _hasDoneInitialLoad c; _currentList := _currentList c;
     _isLoadingTasks := _isLoadingTasks c; _newTaskName := _newTaskName c;
     _newTaskDueDate := _newTaskDueDate c; _newTaskListId := _newTaskListId c |}.

Definition set_tasks (v : option (list loc)) (c : Component) : Component :=
  {| readOnly := readOnly c; targetId := targetId c; initialId := initialId c;
     hideHeader := hideHeader c; hideOptions := hideOptions c; taskFilter := taskFilter c;
     _isNewTaskVisible := _isNewTaskVisible c;
     _newTaskBeingAdded := _newTaskBeingAdded c; _lists := _lists c;
     _tasks := v;
     _hiddenTasks := _hiddenTasks c; _loadingTasks := _loadingTasks c;
     _hasDoneInitialLoad := _hasDoneInitialLoad c; _currentList := _currentList c;
     _isLoadingTasks := _isLoadingTasks c; _newTaskName := _newTaskName c;
     _newTaskDueDate := _newTaskDueDate c; _newTaskListId := _newTaskListId c |}.

Definition set_hiddenTasks (v : list string) (c : Component) : Component :=
  {| readOnly := readOnly c; targetId := targetId c; initialId := initialId c;
     hideHeader := hideHeader c; hideOptions := hideOptions c; taskFilter := taskFilter c;
     _isNewTaskVisible := _isNewTaskVisible c;
     _newTaskBeingAdded := _newTaskBeingAdded c; _lists := _lists c; _tasks := _tasks c;
     _hiddenTasks := v;
     _loadingTasks := _loadingTasks c;
     _hasDoneInitialLoad := _hasDoneInitialLoad c; _currentList := _currentList c;
     _isLoadingTasks := _isLoadingTasks c; _newTaskName := _newTaskName c;
     _newTaskDueDate := _newTaskDueDate c; _newTaskListId := _newTaskListId c |}.

Definition set_loadingTasks (v : list string) (c : Component) : Component :=
  {| readOnly := readOnly c; targetId := targetId c; initialId := initialId c;
     hideHeader := hideHeader c; hideOptions := hideOptions c; taskFilter := taskFilter c;
     _isNewTaskVisible := _isNewTaskVisible c;
     _newTaskBeingAdded := _newTaskBeingAdded c; _lists := _lists c; _tasks := _tasks c;
     _hiddenTasks := _hiddenTasks c;
     _loadingTasks := v;
     _hasDoneInitialLoad := _hasDoneInitialLoad c; _currentList := _currentList c;
     _isLoadingTasks := _isLoadingTasks c; _newTaskName := _newTaskName c;
     _newTaskDueDate := _newTaskDueDate c; _newTaskListId := _newTaskListId c |}.

Definition set_newTaskName (v : string) (c : Component) : Component :=
  {| readOnly := readOnly c; targetId := targetId c; initialId := initialId c;
     hideHeader := hideHeader c; hideOptions := hideOptions c; taskFilter := taskFilter c;
     _isNewTaskVisible := _isNewTaskVisible c;
     _newTaskBeingAdded := _newTaskBeingAdded c; _lists := _lists c; _tasks := _tasks c;
     _hiddenTasks := _hiddenTasks c; _loadingTasks := _loadingTasks c;
     _hasDoneInitialLoad := _hasDoneInitialLoad c; _currentList := _currentList c;
     _isLoadingTasks := _isLoadingTasks c;
     _newTaskName := v;
     _newTaskDueDate := _newTaskDueDate c; _newTaskListId := _newTaskListId c |}.

Definition set_newTaskDueDate (v : option Z) (c : Component) : Component :=
  {| readOnly := readOnly c; targetId := targetId c; initialId := initialId c;
     hideHeader := hideHeader c; hideOptions := hideOptions c; taskFilter := taskFilter c;
     _isNewTaskVisible := _isNewTaskVisible c;
     _newTaskBeingAdded := _newTaskBeingAdded c; _lists := _lists c; _tasks := _tasks c;
     _hiddenTasks := _hiddenTasks c; _loadingTasks := _loadingTasks c;
     _hasDoneInitialLoad := _hasDoneInitialLoad c; _currentList := _currentList c;
     _isLoadingTasks := _isLoadingTasks c; _newTaskName := _newTaskName c;
     _newTaskDueDate := v;
     _newTaskListId := _newTaskListId c |}.

(** *** Effects on the surroundings *)

Definition onSelf (f : Component -> Component) (w : World) : World :=
  {| self := f (self w); store := store w; calls := calls w;
     stateUpdates := stateUpdates w |}.

(** An assignment to a field of the object at [r]. *)
Definition write (r : loc) (x : TodoTask.t) (w : World) : World :=
  {| self := self w; store := <[r := x]> (store w); calls := calls w;
     stateUpdates := stateUpdates w |}.

(** A new object, as the gateway hands one back; its location is the next
    free one. *)
Definition alloc (x : TodoTask.t) (w : World) : loc * World :=
  (length (store w),
   {| self := self w; store := store w ++ [x]; calls := calls w;
      stateUpdates := stateUpdates w |}).

Definition issue (c : GatewayCall) (w : World) : World :=
  {| self := self w; store := store w; calls := calls w ++ [c];
     stateUpdates := stateUpdates w |}.

(** [requestStateUpdate()] belongs to the base component, which is not among
    the sources; the call is counted. *)
Definition requestStateUpdate (w : World) : World :=
  {| self := self w; store := store w; calls := calls w;
     stateUpdates := S (stateUpdates w) |}.

(** *** Array helpers *)

(** [ids.includes(x)] *)
Definition includes (x : string) (ids : list string) : bool :=
  existsb (fun y => y =? x) ids.

(** A callback [t => p(t)] applied to the element at location [r].  The
    component only ever holds locations of objects in the store; a location
    outside it satisfies no callback. *)
Definition holds (objs : list TodoTask.t) (p : TodoTask.t -> bool) (r : loc) : bool :=
  match objs !! r with
  | Some t => p t
  | None => false
  end.

(** [xs.findIndex(p)], with [None] for [-1]. *)
Fixpoint findIndex {A} (p : A -> bool) (xs : list A) : option nat :=
  match xs with
  | [] => None
  | x :: xs' => if p x then Some 0 else S <$> findIndex p xs'
  end.

(** [xs[i] = x] with [i] the result of [findIndex]: at [-1] the assignment
    sets a property named "-1" and no element changes. *)
Definition assignAt {A} (i : option nat) (x : A) (xs : list A) : list A :=
  match i with
  | Some n => <[n := x]> xs
  | None => xs
  end.

(** *** render *)

(** The tasks [render] hands to [repeat]: those of [_tasks] that are not
    hidden, narrowed by [taskFilter] when one is set. *)
Definition render_tasks (w : World) : list loc :=
  match _tasks (self w) with
  | None => []
  | Some ts =>
      let tasks :=
        List.filter
          (holds (store w)
             (fun task => negb (includes (TodoTask.id task) (_hiddenTasks (self w)))))
          ts in
      match taskFilter (self w) with
      | Some f => List.filter (holds (store w) (fun task => f task)) tasks
      | None => tasks
      end
  end.

(** What decides the look of a task's row: the key given to [repeat] and
    the two tests [renderTask] starts with, [isCompleted] and [isLoading]. *)
Record Row := {
  key : string;
  rowComplete : bool;
  rowLoading : bool
}.

(** The key and the two tests for one task.  This is the part of
    [renderTask] that cannot throw; the method as a whole is
    [MgtTodoView.renderTaskView]. *)
Definition rowOf (w : World) (task : TodoTask.t) : Row :=
  {| key := TodoTask.id task;
     rowComplete := isCompleted (TodoTask.status task);
     rowLoading := includes (TodoTask.id task) (_loadingTasks (self w)) |}.

(** The same for every task [render] hands to [repeat], in order.  The
    method [render] as a whole, which also draws the header and the panel
    and may throw, is [MgtTodoView.render]. *)
Definition rows (w : World) : list Row :=
  omap (fun r => rowOf w <$> store w !! r) (render_tasks w).

(** *** updateTaskStatus *)

(** Up to [await updateTodoTask(...)]: the id joins [_loadingTasks], the
    status is written into the task object itself, and the request goes out.
    Reading [this._currentList.id] throws when no list is current.  [None]
    only for a location that is not an object. *)
Definition updateTaskStatus_begin (w : World) (task : loc) (taskStatus : TaskStatus)
  : option (World * Step) :=
  match store w !! task with
  | None => None
  | Some t =>
      let w1 :=
        onSelf (fun c => set_loadingTasks (_loadingTasks c ++ [TodoTask.id t]) c) w in
      let w2 := write task (TodoTask.withStatus (Member taskStatus) t) w1 in
      match _currentList (self w2) with
      | None => Some (w2, Threw TypeError)
      | Some l =>
          let c := updateTodoTask (TodoTaskList.id l) (TodoTask.id t) task in
          Some (issue c w2, Awaits c)
      end
  end.

(** From the settling of [updateTodoTask] on.  A rejection leaves the method
    at the [await]; otherwise [task] is the object the gateway returned. *)
Definition updateTaskStatus_resume (w : World) (answer : Settled TodoTask.t)
  : World * Settled unit :=
  match answer with
  | Rejected e => (w, Rejected e)
  | Fulfilled t' =>
      let '(task, w1) := alloc t' w in
      match _tasks (self w1) with
      | None => (w1, Rejected TypeError)
      | Some ts =>
          let taskIndex :=
            findIndex (holds (store w1) (fun t => TodoTask.id t =? TodoTask.id t')) ts in
          let w2 := onSelf (set_tasks (Some (assignAt taskIndex task ts))) w1 in
          let w3 :=
            onSelf
              (fun c =>
                 set_loadingTasks
                   (List.filter (fun id => negb (id =? TodoTask.id t')) (_loadingTasks c)) c)
              w2 in
          (requestStateUpdate w3, Fulfilled tt)
      end
  end.

(** A whole call with nothing else happening in between. *)
Definition updateTaskStatus (w : World) (task : loc) (taskStatus : TaskStatus)
    (answer : Settled TodoTask.t) : option (World * Settled unit) :=
  match updateTaskStatus_begin w task taskStatus with
  | None => None
  | Some (w1, Awaits _) => Some (updateTaskStatus_resume w1 answer)
  | Some (w1, Threw e) => Some (w1, Rejected e)
  | Some (w1, Returned) => Some (w1, Fulfilled tt)
  end.

(** *** removeTask *)

Definition removeTask_begin (w : World) (taskId : string) : World * Step :=
  let w1 := onSelf (fun c => set_hiddenTasks (_hiddenTasks c ++ [taskId]) c) w in
  match _currentList (self w1) with
  | None => (w1, Threw TypeError)
  | Some l =>
      let c := deleteTodoTask (TodoTaskList.id l) taskId in
      (issue c w1, Awaits c)
  end.

Definition removeTask_resume (w : World) (taskId : string) (answer : Settled unit)
  : World * Settled unit :=
  match answer with
  | Rejected e => (w, Rejected e)
  | Fulfilled _ =>
      match _tasks (self w) with
      | None => (w, Rejected TypeError)
      | Some ts =>
          let w1 :=
            onSelf
              (set_tasks
                 (Some (List.filter
                          (holds (store w) (fun t => negb (TodoTask.id t =? taskId))) ts)))
              w in
          let w2 :=
            onSelf
              (fun c =>
                 set_hiddenTasks
                   (List.filter (fun id => negb (id =? taskId)) (_hiddenTasks c)) c)
              w1 in
          (requestStateUpdate w2, Fulfilled tt)
      end
  end.

Definition removeTask (w : World) (taskId : string) (answer : Settled unit)
  : World * Settled unit :=
  match removeTask_begin w taskId with
  | (w1, Awaits _) => removeTask_resume w1 taskId answer
  | (w1, Threw e) => (w1, Rejected e)
  | (w1, Returned) => (w1, Fulfilled tt)
  end.

(** *** addTask *)

Definition hideNewTaskPanel (c : Component) : Component :=
  set_newTaskName "" (set_newTaskDueDate None (set_isNewTaskVisible false c)).

(** The [finally] block of [addTask]. *)
Definition addTask_finally (w : World) : World :=
  requestStateUpdate (onSelf hideNewTaskPanel (onSelf (set_newTaskBeingAdded false) w)).

(** Up to [await createTodoTask(...)].  The guard returns at once; a missing
    current list throws inside the [try], so the [finally] block still runs. *)
Definition addTask_begin (w : World) : World * Step :=
  if _newTaskBeingAdded (self w) || (_newTaskName (self w) =? "") then
    (w, Returned)
  else
    let w1 := onSelf (set_newTaskBeingAdded true) w in
    match _currentList (self w1) with
    | None => (addTask_finally w1, Threw TypeError)
    | Some l =>
        let c := createTodoTask (TodoTaskList.id l) (_newTaskName (self w1)) in
        (issue c w1, Awaits c)
    end.

(** From the settling of [createTodoTask] on: [unshift] of the new object,
    then the [finally] block on every path. *)
Definition addTask_resume (w : World) (answer : Settled TodoTask.t)
  : World * Settled unit :=
  match answer with
  | Rejected e => (addTask_finally w, Rejected e)
  | Fulfilled t' =>
      let '(task, w1) := alloc t' w in
      match _tasks (self w1) with
      | None => (addTask_finally w1, Rejected TypeError)
      | Some ts =>
          (addTask_finally (onSelf (set_tasks (Some (task :: ts))) w1), Fulfilled tt)
      end
  end.

Definition addTask (w : World) (answer : Settled TodoTask.t) : World * Settled unit :=
  match addTask_begin w with
  | (w1, Awaits _) => addTask_resume w1 answer
  | (w1, Threw e) => (w1, Rejected e)
  | (w1, Returned) => (w1, Fulfilled tt)
  end.

(** *** handleTaskCheckClick *)

(** The handler of the check control.  [updateTaskStatus] is called without
    [await]: the handler goes on as soon as the call yields, whatever
    becomes of its promise. *)
Definition handleTaskCheckClick (w : World) (e : Event) (task : loc)
  : option (World * Event) :=
  if negb (readOnly (self w)) then
    match store w !! task with
    | None => None
    | Some t =>
        match
          (if isCompleted (TodoTask.status t)
           then updateTaskStatus_begin w task notStarted
           else updateTaskStatus_begin w task completed)
        with
        | None => None
        | Some (w', _) => Some (w', preventDefault (stopPropagation e))
        end
    end
  else Some (w, e).

End MgtTodo.

(** ** mgt-tasks-base and mgt-planner: a whole [addTask] *)

Module MgtPlanner.
Import MgtTasksBase.

(** The three parts of the base [addTask] in a row: the guard and the flag,
    the update, the hook of the subclass, which settles as [created] says,
    and the [finally] block.  The promise of [addTask] settles as the hook
    did. *)
Definition addTask_with (created : Settled unit) (w : World) : World * Settled unit :=
  match addTask_begin w with
  | (w1, AwaitsUpdate) => addTask_finally (fst (addTask_create w1)) created
  | (w1, _) => (w1, Fulfilled tt)
  end.

(** [MgtPlanner.createNewTask] has an empty body: its promise is fulfilled
    and nothing has been sent. *)
Definition createNewTask : Settled unit := Fulfilled tt.

Definition addTask (w : World) : World * Settled unit :=
  addTask_with createNewTask w.

End MgtPlanner.

(** ** mgt-todo: loading the lists and the tasks *)

Module MgtTodoLoad.
Import TaskStatus MgtTodo.

(** *** Assignments to further fields *)

Definition set_lists (v : list TodoTaskList.t) (c : Component) : Component :=
  {| readOnly := readOnly c; targetId := targetId c; initialId := initialId c;
     hideHeader := hideHeader c; hideOptions := hideOptions c; taskFilter := taskFilter c;
     _isNewTaskVisible := _isNewTaskVisible c; _newTaskBeingAdded := _newTaskBeingAdded c;
     _lists := v; _tasks := _tasks c; _hiddenTasks := _hiddenTasks c;
     _loadingTasks := _loadingTasks c; _hasDoneInitialLoad := _hasDoneInitialLoad c;
     _currentList := _currentList c; _isLoadingTasks := _isLoadingTasks c;
     _newTaskName := _newTaskName c; _newTaskDueDate := _newTaskDueDate c;
     _newTaskListId := _newTaskListId c |}.

Definition set_currentList (v : option TodoTaskList.t) (c : Component) : Component :=
  {| readOnly := readOnly c; targetId := targetId c; initialId := initialId c;
     hideHeader := hideHeader c; hideOptions := hideOptions c; taskFilter := taskFilter c;
     _isNewTaskVisible := _isNewTaskVisible c; _newTaskBeingAdded := _newTaskBeingAdded c;
     _lists := _lists c; _tasks := _tasks c; _hiddenTasks := _hiddenTasks c;
     _loadingTasks := _loadingTasks c; _hasDoneInitialLoad := _hasDoneInitialLoad c;
     _currentList := v; _isLoadingTasks := _isLoadingTasks c;
     _newTaskName := _newTaskName c; _newTaskDueDate := _newTaskDueDate c;
     _newTaskListId := _newTaskListId c |}.

Definition set_isLoadingTasks (v : bool) (c : Component) : Component :=
  {| readOnly := readOnly c; targetId := targetId c; initialId := initialId c;
     hideHeader := hideHeader c; hideOptions := hideOptions c; taskFilter := taskFilter c;
     _isNewTaskVisible := _isNewTaskVisible c; _newTaskBeingAdded := _newTaskBeingAdded c;
     _lists := _lists c; _tasks := _tasks c; _hiddenTasks := _hiddenTasks c;
     _loadingTasks := _loadingTasks c; _hasDoneInitialLoad := _hasDoneInitialLoad c;
     _currentList := _currentList c; _isLoadingTasks := v; _newTaskName := _newTaskName c;
     _newTaskDueDate := _newTaskDueDate c; _newTaskListId := _newTaskListId c |}.

Definition set_hasDoneInitialLoad (v : bool) (c : Component) : Component :=
  {| readOnly := readOnly c; targetId := targetId c; initialId := initialId c;
     hideHeader := hideHeader c; hideOptions := hideOptions c; taskFilter := taskFilter c;
     _isNewTaskVisible := _isNewTaskVisible c; _newTaskBeingAdded := _newTaskBeingAdded c;
     _lists := _lists c; _tasks := _tasks c; _hiddenTasks := _hiddenTasks c;
     _loadingTasks := _loadingTasks c; _hasDoneInitialLoad := v;
     _currentList := _currentList c; _isLoadingTasks := _isLoadingTasks c;
     _newTaskName := _newTaskName c; _newTaskDueDate := _newTaskDueDate c;
     _newTaskListId := _newTaskListId c |}.

Definition set_newTaskListId (v : string) (c : Component) : Component :=
  {| readOnly := readOnly c; targetId := targetId c; initialId := initialId c;
     hideHeader := hideHeader c; hideOptions := hideOptions c; taskFilter := taskFilter c;
     _isNewTaskVisible := _isNewTaskVisible c; _newTaskBeingAdded := _newTaskBeingAdded c;
     _lists := _lists c; _tasks := _tasks c; _hiddenTasks := _hiddenTasks c;
     _loadingTasks := _loadingTasks c; _hasDoneInitialLoad := _hasDoneInitialLoad c;
     _currentList := _currentList c; _isLoadingTasks := _isLoadingTasks c;
     _newTaskName := _newTaskName c; _newTaskDueDate := _newTaskDueDate c;
     _newTaskListId := v |}.

(** The reads the component asks of the to-do gateway. *)
Inductive ReadCall :=
| getTodoTaskList (listId : string)
| getTodoTaskLists
| getTodoTasks (listId : string).

(** Where a loading method stands when control comes back to the caller;
    the read it awaits is handed back with it. *)
Inductive LoadStep :=
| LoadDone
| LoadThrew (e : Error)
| LoadAwaits (c : ReadCall).

(** The objects of an answered array, put into the store one after the
    other, with their locations in the order of the array. *)
Definition allocAll (xs : list TodoTask.t) (w : World) : list loc * World :=
  (seq (length (store w)) (length xs),
   {| self := self w; store := store w ++ xs; calls := calls w;
      stateUpdates := stateUpdates w |}).

(** *** loadTaskList *)

(** Up to [await getTodoTasks(...)]. *)
Definition loadTaskList_begin (w : World) (list : TodoTaskList.t) : World * ReadCall :=
  let w1 := onSelf (set_isLoadingTasks true) w in
  let w2 := onSelf (set_tasks None) w1 in
  let w3 := onSelf (set_currentList (Some list)) w2 in
  (w3, getTodoTasks (TodoTaskList.id list)).

(** From the answer on.  The answer is the array of tasks, or nothing where
    the gateway hands back no array; a rejection leaves the method at the
    [await]. *)
Definition loadTaskList_resume (w : World) (answer : Settled (option (list TodoTask.t)))
  : World * Settled unit :=
  match answer with
  | Rejected e => (w, Rejected e)
  | Fulfilled None =>
      (onSelf (set_isLoadingTasks false) (onSelf (set_tasks None) w), Fulfilled tt)
  | Fulfilled (Some xs) =>
      let '(tasks, w1) := allocAll xs w in
      (onSelf (set_isLoadingTasks false) (onSelf (set_tasks (Some tasks)) w1), Fulfilled tt)
  end.

(** *** loadState *)

(** What the first [await] of [loadState] yields: the one list asked for by
    [targetId], wrapped into an array by the caller, or the answer of
    [getTodoTaskLists]. *)
Inductive ListsAnswer :=
| OneList (l : TodoTaskList.t)
| AllLists (ls : option (list TodoTaskList.t)).

Definition listsOf (a : ListsAnswer) : option (list TodoTaskList.t) :=
  match a with
  | OneList l => Some [l]
  | AllLists ls => ls
  end.

(** Up to the first [await].  [signedIn] says whether there is a global
    provider in the signed-in state. *)
Definition loadState_begin (signedIn : bool) (w : World) : World * LoadStep :=
  if negb signedIn then (w, LoadDone)
  else
    match _lists (self w) with
    | [] =>
        (w, LoadAwaits (if targetId (self w) =? ""
                        then getTodoTaskLists
                        else getTodoTaskList (targetId (self w))))
    | _ :: _ => (onSelf (set_hasDoneInitialLoad true) w, LoadDone)
    end.

(** From the answer with the lists to the [await] of [loadTaskList]. *)
Definition loadState_lists (w : World) (answer : Settled ListsAnswer) : World * LoadStep :=
  match answer with
  | Rejected e => (w, LoadThrew e)
  | Fulfilled a =>
      match listsOf a with
      | Some (first :: rest) =>
          let lists := first :: rest in
          let found :=
            if initialId (self w) =? "" then None
            else List.find (fun l => TodoTaskList.id l =? initialId (self w)) lists in
          let currentList := match found with Some l => l | None => first end in
          let w1 := onSelf (set_lists lists) w in
          let '(w2, c) := loadTaskList_begin w1 currentList in
          (w2, LoadAwaits c)
      | _ => (onSelf (set_hasDoneInitialLoad true) w, LoadDone)
      end
  end.

(** From the answer with the tasks to the end. *)
Definition loadState_tasks (w : World) (answer : Settled (option (list TodoTask.t)))
  : World * Settled unit :=
  match loadTaskList_resume w answer with
  | (w1, Fulfilled _) => (onSelf (set_hasDoneInitialLoad true) w1, Fulfilled tt)
  | (w1, Rejected e) => (w1, Rejected e)
  end.

End MgtTodoLoad.

(** ** mgt-todo: the panel, the header, the row and its click *)

Module MgtTodoView.
Import TaskStatus MgtTodo MgtTodoLoad.

(** What a synchronous method comes back with. *)
Inductive Result (A : Type) :=
| Value (a : A)
| Throws (e : Error).
Arguments Value {A} a.
Arguments Throws {A} e.

(** *** The new-task panel *)

Definition showNewTaskPanel (c : Component) : Component :=
  set_isNewTaskVisible true c.

(** The [isNewTaskVisible] property: its getter and its setter. *)
Definition isNewTaskVisible (c : Component) : bool := _isNewTaskVisible c.

Definition isNewTaskVisible_set (value : bool) (c : Component) : Component :=
  if negb (Bool.eqb value (_isNewTaskVisible c)) then
    if value then showNewTaskPanel c else hideNewTaskPanel c
  else c.

(** The list part of the panel: the name of the current list, or a select
    over the lists that pass the filter, as (value, label) pairs. *)
Inductive ListPicker :=
| CurrentListName (displayName : string)
| ListSelect (value : string) (options : list (string * string)).

(** The buttons of the panel: none while a task is being added. *)
Inductive AddControls :=
| NoControls
| CancelAndAdd (disabled : bool).

Record NewTaskPanel := {
  titleValue : string;
  picker : ListPicker;
  controls : AddControls
}.

(** [renderNewTaskPanel], with the assignment to [_newTaskListId] it makes
    on the way. *)
Definition renderNewTaskPanel (c : Component) : Component * NewTaskPanel :=
  let taskTitle := _newTaskName c in
  let lists :=
    List.filter
      (fun list =>
         match _currentList c with
         | Some cur => TodoTaskList.id list =? TodoTaskList.id cur
         | None => TodoTaskList.id list =? _newTaskListId c
         end)
      (_lists c) in
  let c1 :=
    match lists with
    | first :: _ =>
        if _newTaskListId c =? "" then set_newTaskListId (TodoTaskList.id first) c else c
    | [] => c
    end in
  let taskList :=
    match _currentList c1 with
    | Some cur => CurrentListName (TodoTaskList.displayName cur)
    | None =>
        ListSelect (_newTaskListId c1)
          (map (fun list => (TodoTaskList.id list, TodoTaskList.displayName list)) lists)
    end in
  let taskAdd :=
    if _newTaskBeingAdded c1 then NoControls
    else CancelAndAdd (_newTaskName c1 =? "") in
  (c1, {| titleValue := taskTitle; picker := taskList; controls := taskAdd |}).

(** *** The header *)

Inductive HeaderList :=
| PlanTitle (displayName : string)
| ArrowOptions (value : string) (options : gmap string TodoTaskList.t)
| NoList.

Inductive Header :=
| LoadingHeader
| TitleAndAdd (listSelect : HeaderList) (addButton : bool).

(** One turn of the loop that fills [listOptions]:
    [listOptions[l.displayName] = ...].  On the plain object the loop starts
    from, an assignment to the key "__proto__" goes to the setter inherited
    from the prototype: it replaces the prototype and adds no key. *)
Definition assignOption (options : gmap string TodoTaskList.t) (l : TodoTaskList.t)
  : gmap string TodoTaskList.t :=
  if TodoTaskList.displayName l =? "__proto__" then options
  else <[TodoTaskList.displayName l := l]> options.

(** [listOptions]: the keys of the object are display names, each holding
    the list that choosing the entry loads; the loop assigns in the order
    of [_lists]. *)
Definition listOptions (lists : list TodoTaskList.t) : gmap string TodoTaskList.t :=
  foldl assignOption ∅ lists.

(** [renderHeader]; [isLoadingState] is the getter of the base component.
    Reading [list.displayName] throws when [targetId] is set and no list of
    [_lists] has that id. *)
Definition renderHeader (isLoadingState : bool) (c : Component) : Result Header :=
  if isLoadingState || negb (_hasDoneInitialLoad c) then Value LoadingHeader
  else
    let addButton := negb (readOnly c) && negb (_isNewTaskVisible c) in
    let list := List.find (fun l => TodoTaskList.id l =? targetId c) (_lists c) in
    if negb (targetId c =? "") then
      match list with
      | Some l => Value (TitleAndAdd (PlanTitle (TodoTaskList.displayName l)) addButton)
      | None => Throws TypeError
      end
    else
      match _currentList c with
      | Some cur =>
          Value (TitleAndAdd
                   (ArrowOptions (TodoTaskList.displayName cur) (listOptions (_lists c)))
                   addButton)
      | None => Value (TitleAndAdd NoList addButton)
      end.


(** *** The row of a task *)

Inductive CheckContent := Spinner | CheckMark | NoContent.

(** The default row: the classes of the row and of its check, what the
    check shows, and whether the options with "Delete Task" are there. *)
Record TaskRow := {
  rowKey : string;
  taskComplete : bool;
  taskReadOnly : bool;
  checkComplete : bool;
  checkLoading : bool;
  checkContent : CheckContent;
  bucketName : option string;
  withOptions : bool
}.

Inductive TaskView :=
| TemplatedTask (key : string)
| DefaultTask (row : TaskRow).

(** [renderTask]; [hasTask] and [hasDetails] say whether the page supplies
    the templates 'task' and 'task-details'.  Without the latter the row
    names the current list, and reading its name throws when there is none. *)
Definition renderTaskView (hasTask hasDetails : bool) (c : Component) (task : TodoTask.t)
  : Result TaskView :=
  if hasTask then Value (TemplatedTask (TodoTask.id task))
  else
    let isCompleted := isCompleted (TodoTask.status task) in
    let isLoading := includes (TodoTask.id task) (_loadingTasks c) in
    let taskCheckContent :=
      if isLoading then Spinner else if isCompleted then CheckMark else NoContent in
    let row bucket :=
      {| rowKey := TodoTask.id task;
         taskComplete := isCompleted;
         taskReadOnly := readOnly c;
         checkComplete := negb isLoading && isCompleted;
         checkLoading := isLoading;
         checkContent := taskCheckContent;
         bucketName := bucket;
         withOptions := negb (readOnly c) && negb (hideOptions c) |} in
    if hasDetails then Value (DefaultTask (row None))
    else
      match _currentList c with
      | Some cur => Value (DefaultTask (row (Some (TodoTaskList.displayName cur))))
      | None => Throws TypeError
      end.

(** *** Clicks on a row *)

(** A custom event the component has fired, with the task in its detail. *)
Record Fired := {
  eventName : string;
  detail : loc
}.

(** [handleTaskClick]: the handler of the row's content.  It touches no
    field; the events fired so far are passed along. *)
Definition handleTaskClick (fired : list Fired) (e : Event) (task : loc)
  : list Fired * Event :=
  (fired ++ [{| eventName := "taskClick"; detail := task |}],
   preventDefault (stopPropagation e)).

(** A click on the check control: its handler runs first and, the control
    being inside the row's content, the handler of the content runs next
    unless the first stopped the propagation. *)
Definition clickCheck (w : World) (fired : list Fired) (e : Event) (task : loc)
  : option (World * list Fired * Event) :=
  match handleTaskCheckClick w e task with
  | None => None
  | Some (w1, e1) =>
      if propagationStopped e1 then Some (w1, fired, e1)
      else
        let '(fired1, e2) := handleTaskClick fired e1 task in
        Some (w1, fired1, e2)
  end.

(** *** render *)





End MgtTodoView.

(** ** Sample states *)

Module Samples.
Import TaskStatus MgtTodo.

Definition tasksList : TodoTaskList.t :=
  {| TodoTaskList.id := "L1"; TodoTaskList.displayName := "Tasks" |}.

(** The task of the spec's scenarios, with the given status. *)
Definition milk (s : Value) : TodoTask.t :=
  {| TodoTask.id := "1"; TodoTask.title := "Buy milk"; TodoTask.status := s;
     TodoTask.dueDateTime := None |}.

Definition bread : TodoTask.t :=
  {| TodoTask.id := "2"; TodoTask.title := "Buy bread"; TodoTask.status := Name "notStarted";
     TodoTask.dueDateTime := None |}.

(** A component after its initial load: one list, the tasks at locations
    [0] and [1], nothing pending, the new-task panel closed. *)
Definition loaded : Component :=
  {| readOnly := false; targetId := ""; initialId := "";
     hideHeader := false; hideOptions := false; taskFilter := None;
     _isNewTaskVisible := false; _newTaskBeingAdded := false;
     _lists := [tasksList]; _tasks := Some [0; 1];
     _hiddenTasks := []; _loadingTasks := [];
     _hasDoneInitialLoad := true; _currentList := Some tasksList;
     _isLoadingTasks := false; _newTaskName := "";
     _newTaskDueDate := None; _newTaskListId := "" |}.

Definition world : World :=
  {| self := loaded; store := [milk (Name "completed"); bread]; calls := [];
     stateUpdates := 0 |}.


(** The same in read-only mode. *)
Definition locked : World :=
  {| self :=
       {| readOnly := true; targetId := ""; initialId := "";
          hideHeader := false; hideOptions := false; taskFilter := None;
          _isNewTaskVisible := false; _newTaskBeingAdded := false;
          _lists := [tasksList]; _tasks := Some [0; 1];
          _hiddenTasks := []; _loadingTasks := [];
          _hasDoneInitialLoad := true; _currentList := Some tasksList;
          _isLoadingTasks := false; _newTaskName := "";
          _newTaskDueDate := None; _newTaskListId := "" |};
     store := [milk (Name "completed"); bread]; calls := []; stateUpdates := 0 |}.

(** [world] after a click on the check control of the first task, while
    the update is in flight. *)
Definition toggling : World :=
  {| self := set_loadingTasks ["1"] loaded;
     store := [milk (Member notStarted); bread];
     calls := [updateTodoTask "L1" "1" 0];
     stateUpdates := 0 |}.

Definition click : Event :=
  {| propagationStopped := false; defaultPrevented := false |}.

Definition eggs : TodoTask.t :=
  {| TodoTask.id := "42"; TodoTask.title := "Buy eggs"; TodoTask.status := Name "notStarted";
     TodoTask.dueDateTime := None |}.

(** A base component with an empty draft. *)
Definition base : MgtTasksBase.World :=
  {| MgtTasksBase.self :=
       {| MgtTasksBase.readOnly := false; MgtTasksBase.hideHeader := false;
          MgtTasksBase.hideOptions := false; MgtTasksBase.isNewTaskBeingAdded := false;
          MgtTasksBase._isNewTaskVisible := true; MgtTasksBase._newTaskName := "" |};
     MgtTasksBase.updates := 0; MgtTasksBase.creations := 0 |}.

End Samples.

(** ** Further sample states *)

Module MoreSamples.
Import TaskStatus MgtTodo MgtTodoLoad.

(** The component as its constructor leaves it, with [initialId] set by
    the page. *)
Definition constructed : World :=
  {| self :=
       {| readOnly := false; targetId := ""; initialId := "L2";
          hideHeader := false; hideOptions := false; taskFilter := None;
          _isNewTaskVisible := false; _newTaskBeingAdded := false;
          _lists := []; _tasks := Some [];
          _hiddenTasks := []; _loadingTasks := [];
          _hasDoneInitialLoad := false; _currentList := None;
          _isLoadingTasks := false; _newTaskName := "";
          _newTaskDueDate := None; _newTaskListId := "" |};
     store := []; calls := []; stateUpdates := 0 |}.

Definition shopping : TodoTaskList.t :=
  {| TodoTaskList.id := "L2"; TodoTaskList.displayName := "Shopping" |}.

(** [Samples.world] with no current list. *)
Definition adrift : World :=
  onSelf (set_currentList None) Samples.world.

(** The answer of the service to the toggle of the first sample task. *)
Definition milkDone : TodoTask.t := Samples.milk (Name "completed").




(** A base component with the panel open and a draft typed in. *)
Definition baseDraft : MgtTasksBase.World :=
  {| MgtTasksBase.self :=
       {| MgtTasksBase.readOnly := false; MgtTasksBase.hideHeader := false;
          MgtTasksBase.hideOptions := false; MgtTasksBase.isNewTaskBeingAdded := false;
          MgtTasksBase._isNewTaskVisible := true; MgtTasksBase._newTaskName := "Buy eggs" |};
     MgtTasksBase.updates := 0; MgtTasksBase.creations := 0 |}.

End MoreSamples.

(** * Properties *)

(** ** The planner gateway *)

Module GatewayFacts.
Import Graph GraphPlanner.

Section Gateway.
Variable PlannerTask : Type.
Variable People : Type.
Variable withAssignments : People -> PlannerTask.
Variable JSON_stringify : PlannerTask -> string.

Local Abbreviation send := (GraphPlanner.send PlannerTask People withAssignments JSON_stringify).

Lemma header_lookup name value r :
  headers (header name value r) !! name = Some value.
Proof. unfold header; simpl. apply lookup_insert_eq. Qed.

Lemma send_method_by_kind (op : Operation PlannerTask People) :
  method (send op) = GET <-> readOnlyKind (kind PlannerTask People op) = true.
Proof. destruct op; simpl; split; intros H; (reflexivity || discriminate). Qed.

(** C8. Every operation of the planner gateway sends its request with the
    header [Cache-Control: no-store]; the list and get operations, which are
    exactly those sent with GET, carry the scope Group.Read.All, and the
    create, update and delete operations carry Group.ReadWrite.All. *)
Theorem gateway_no_store_and_scope (op : Operation PlannerTask People) :
  headers (request (send op)) !! "Cache-Control" = Some "no-store" /\
  scopesOf (send op) =
    [if readOnlyKind (kind PlannerTask People op)
     then "Group.Read.All" else "Group.ReadWrite.All"] /\
  scopesOf (send op) = [requiredScope (method (send op))].
Proof.
  destruct op; simpl; repeat split; apply lookup_insert_eq.
Qed.

End Gateway.
End GatewayFacts.

(** ** The enum lookup *)

Module StatusFacts.
Import TaskStatus.

Lemma ofName_name m : ofName (name m) = Some m.
Proof. destruct m; reflexivity. Qed.

Lemma ofName_completed s : ofName s = Some completed -> s = "completed".
Proof.
  unfold ofName, members, List.find, name.
  repeat match goal with
         | |- context [String.eqb ?a s] => destruct (String.eqb_spec a s)
         end; intros H; try discriminate H; auto.
Qed.

(** The test of the handler and of [renderTask] recognises exactly the name
    the service sends for a completed task. *)
Lemma isCompleted_iff v : isCompleted v = true <-> v = Name "completed".
Proof.
  split.
  - destruct v as [s | m]; unfold isCompleted, index; [| discriminate].
    destruct (ofName s) as [m |] eqn:E.
    + destruct m; simpl; try discriminate.
      intros _. f_equal. now apply ofName_completed.
    + destruct (ofKey s); discriminate.
  - intros ->. reflexivity.
Qed.

(** A member of the enum, the form [updateTaskStatus] writes, indexes the
    reverse entry: its name, never the number of [completed]. *)
Lemma isCompleted_Member m : isCompleted (Member m) = false.
Proof. reflexivity. Qed.

Lemma isCompleted_name m :
  isCompleted (Name (name m)) = true <-> m = completed.
Proof.
  rewrite isCompleted_iff. split.
  - destruct m; simpl; intros H; try discriminate H; reflexivity.
  - intros ->. reflexivity.
Qed.

End StatusFacts.

(** ** The to-do component *)

Module TodoFacts.
Import TaskStatus MgtTodo StatusFacts.

(** *** Lists *)

Lemma includes_In x ids : includes x ids = true <-> In x ids.
Proof.
  unfold includes. rewrite existsb_exists. split.
  - intros (y & Hy & E). apply String.eqb_eq in E. now subst.
  - intros H. exists x. split; [exact H | apply String.eqb_refl].
Qed.

Lemma includes_false x ids : includes x ids = false <-> ~ In x ids.
Proof.
  rewrite <- includes_In. destruct (includes x ids); split; intros H;
    (congruence || (exfalso; apply H; reflexivity) || discriminate).
Qed.

(** Filtering an id out leaves no occurrence of it and keeps the others. *)
Lemma In_without x y ids :
  In y (List.filter (fun id => negb (id =? x)) ids) <-> In y ids /\ y <> x.
Proof.
  rewrite filter_In, negb_true_iff, String.eqb_neq. reflexivity.
Qed.

Lemma without_absent x ids : ~ In x (List.filter (fun id => negb (id =? x)) ids).
Proof. rewrite In_without. intros [_ H]. now apply H. Qed.

(** An id appended as a marker and then filtered out: no occurrence is
    left, the other ids are those there were. *)
Lemma without_appended x ids :
  ~ In x (List.filter (fun id => negb (id =? x)) (ids ++ [x])) /\
  forall y, y <> x ->
            (In y (List.filter (fun id => negb (id =? x)) (ids ++ [x])) <-> In y ids).
Proof.
  split; [apply without_absent |].
  intros y Hne. rewrite In_without, in_app_iff. simpl.
  split; [intros [[H | [H | []]] _]; [exact H | congruence] | intros H; auto].
Qed.

Lemma filter_sublist {A} (p : A -> bool) (xs : list A) : sublist (List.filter p xs) xs.
Proof.
  induction xs as [| x xs IH]; simpl.
  - constructor.
  - destruct (p x); now constructor.
Qed.

Lemma holds_true objs p r :
  holds objs p r = true <-> exists t, objs !! r = Some t /\ p t = true.
Proof.
  unfold holds. destruct (objs !! r) as [t |].
  - split; [intros H; now exists t | intros (t' & E & H); congruence].
  - split; [discriminate | intros (t' & E & _); discriminate].
Qed.

(** *** render *)

Lemma render_tasks_In w r :
  In r (render_tasks w) <->
  exists ts t,
    _tasks (self w) = Some ts /\ In r ts /\ store w !! r = Some t /\
    ~ In (TodoTask.id t) (_hiddenTasks (self w)) /\
    match taskFilter (self w) with Some f => f t = true | None => True end.
Proof.
  unfold render_tasks. destruct (_tasks (self w)) as [ts |].
  - destruct (taskFilter (self w)) as [f |].
    + rewrite !filter_In, !holds_true. split.
      * intros [[Hin (t & Ht & Hh)] (t' & Ht' & Hf)].
        exists ts, t. rewrite Ht in Ht'. injection Ht' as <-.
        apply negb_true_iff, includes_false in Hh. auto.
      * intros (ts' & t & E & Hin & Ht & Hh & Hf). injection E as <-.
        repeat split; try exact Hin; exists t; split; auto.
        apply negb_true_iff, includes_false, Hh.
    + rewrite filter_In, holds_true. split.
      * intros [Hin (t & Ht & Hh)]. exists ts, t.
        apply negb_true_iff, includes_false in Hh. auto.
      * intros (ts' & t & E & Hin & Ht & Hh & _). injection E as <-.
        split; [exact Hin |]. exists t. split; [exact Ht |].
        apply negb_true_iff, includes_false, Hh.
  - split; [intros [] | intros (ts & t & E & _); discriminate].
Qed.

Lemma render_rows w rs :
  (forall r, In r rs -> exists t, store w !! r = Some t) ->
  Forall2 (fun r row => exists t, store w !! r = Some t /\ row = rowOf w t)
    rs (omap (fun r => rowOf w <$> store w !! r) rs).
Proof.
  induction rs as [| r rs IH]; intros Hlive; simpl.
  - constructor.
  - destruct (Hlive r (or_introl eq_refl)) as [t Ht]. rewrite Ht. simpl.
    constructor.
    + now exists t.
    + apply IH. intros r' Hr'. apply Hlive. now right.
Qed.

Lemma render_rows_keys w rs (P : string -> Prop) :
  (forall r t, In r rs -> store w !! r = Some t -> P (TodoTask.id t)) ->
  Forall (fun row => P (key row)) (omap (fun r => rowOf w <$> store w !! r) rs).
Proof.
  induction rs as [| r rs IH]; intros Hall; simpl.
  - constructor.
  - assert (Hrest : Forall (fun row => P (key row))
                      (omap (fun r => rowOf w <$> store w !! r) rs)).
    { apply IH. intros r' t Hr'. apply Hall. now right. }
    destruct (store w !! r) as [t |] eqn:Ht; simpl; [| exact Hrest].
    constructor; [| exact Hrest]. simpl. apply (Hall r t); [now left | exact Ht].
Qed.

(** The tasks handed to [repeat] are exactly the tasks of [_tasks] whose id
    is not in [_hiddenTasks], further narrowed by [taskFilter] when one is
    set; they keep the order of [_tasks], and [rows] has one entry for each,
    keyed by its id. *)
Lemma rows_of_unhidden_tasks w :
  (forall r,
     In r (render_tasks w) <->
     exists ts t,
       _tasks (self w) = Some ts /\ In r ts /\ store w !! r = Some t /\
       ~ In (TodoTask.id t) (_hiddenTasks (self w)) /\
       match taskFilter (self w) with Some f => f t = true | None => True end) /\
  match _tasks (self w) with
  | Some ts => sublist (render_tasks w) ts
  | None => render_tasks w = []
  end /\
  Forall2 (fun r row => exists t, store w !! r = Some t /\ row = rowOf w t)
    (render_tasks w) (rows w) /\
  Forall (fun row => ~ In (key row) (_hiddenTasks (self w))) (rows w).
Proof.
  assert (Hlive : forall r, In r (render_tasks w) -> exists t,
               store w !! r = Some t /\ ~ In (TodoTask.id t) (_hiddenTasks (self w))).
  { intros r Hr. apply render_tasks_In in Hr as (ts & t & _ & _ & Ht & Hh & _).
    now exists t. }
  assert (Hrows : Forall2
            (fun r row => exists t, store w !! r = Some t /\ row = rowOf w t)
            (render_tasks w) (rows w)).
  { apply render_rows. intros r Hr. destruct (Hlive r Hr) as (t & Ht & _). now exists t. }
  split; [apply render_tasks_In |]. split; [| split; [exact Hrows |]].
  - unfold render_tasks. destruct (_tasks (self w)) as [ts |]; [| reflexivity].
    destruct (taskFilter (self w)).
    + etransitivity; apply filter_sublist.
    + apply filter_sublist.
  - apply (render_rows_keys w (render_tasks w)
             (fun id => ~ In id (_hiddenTasks (self w)))).
    intros r t Hr Ht.
    destruct (Hlive r Hr) as (t' & Ht' & Hh).
    assert (t' = t) as -> by congruence. exact Hh.
Qed.

(** *** The synchronous prefixes *)

Lemma write_lookup task x w t :
  store w !! task = Some t -> store (write task x w) !! task = Some x.
Proof.
  intros H. unfold write; simpl.
  apply list_lookup_insert_eq. eapply lookup_lt_Some, H.
Qed.

(** With a live task and a current list the call reaches the gateway. *)
Lemma updateTaskStatus_begin_sends w task taskStatus t l :
  store w !! task = Some t ->
  _currentList (self w) = Some l ->
  let c := updateTodoTask (TodoTaskList.id l) (TodoTask.id t) task in
  updateTaskStatus_begin w task taskStatus =
    Some (issue c
            (write task (TodoTask.withStatus (Member taskStatus) t)
               (onSelf
                  (fun c => set_loadingTasks (_loadingTasks c ++ [TodoTask.id t]) c) w)),
          Awaits c).
Proof.
  intros Ht Hl. unfold updateTaskStatus_begin. rewrite Ht. simpl. rewrite Hl. reflexivity.
Qed.

(** Whether or not a list is current, the optimistic steps are taken. *)
Lemma updateTaskStatus_begin_marks w task taskStatus t :
  store w !! task = Some t ->
  exists w' step,
    updateTaskStatus_begin w task taskStatus = Some (w', step) /\
    store w' = <[task := TodoTask.withStatus (Member taskStatus) t]> (store w) /\
    _loadingTasks (self w') = _loadingTasks (self w) ++ [TodoTask.id t] /\
    match _currentList (self w) with
    | Some l =>
        step = Awaits (updateTodoTask (TodoTaskList.id l) (TodoTask.id t) task) /\
        calls w' = calls w ++ [updateTodoTask (TodoTaskList.id l) (TodoTask.id t) task]
    | None => step = Threw TypeError /\ calls w' = calls w
    end.
Proof.
  intros Ht. unfold updateTaskStatus_begin. rewrite Ht. simpl.
  destruct (_currentList (self w)) as [l |]; eexists _, _; repeat split; reflexivity.
Qed.

Lemma handleTaskCheckClick_editable w e task t :
  readOnly (self w) = false ->
  store w !! task = Some t ->
  handleTaskCheckClick w e task =
    match
      updateTaskStatus_begin w task
        (if isCompleted (TodoTask.status t) then notStarted else completed)
    with
    | Some (w', _) => Some (w', preventDefault (stopPropagation e))
    | None => None
    end.
Proof.
  intros Hro Ht. unfold handleTaskCheckClick. rewrite Hro, Ht. simpl.
  destruct (isCompleted (TodoTask.status t)); reflexivity.
Qed.

(** *** The check control *)

(** In read-only mode the handler of the check control changes nothing:
    the component, the task objects and the list of gateway calls are as
    before, and the event is neither stopped nor cancelled by it. *)
Lemma read_only_check_click_is_inert w e task :
  readOnly (self w) = true ->
  handleTaskCheckClick w e task = Some (w, e).
Proof.
  intros Hro. unfold handleTaskCheckClick. rewrite Hro. reflexivity.
Qed.


(** *** addTask *)

(** C4. With an empty draft title, or while a submission is in flight,
    [addTask] returns at once: the to-do component, its task objects and the
    list of gateway calls are unchanged whatever the gateway would have
    answered, and the base class of the task components likewise neither
    changes nor reaches [createNewTask]. *)
Theorem addTask_guard_is_noop (w : World) (b : MgtTasksBase.World) :
  (_newTaskName (self w) = "" \/ _newTaskBeingAdded (self w) = true ->
   addTask_begin w = (w, Returned) /\
   forall answer, addTask w answer = (w, Fulfilled tt)) /\
  (MgtTasksBase._newTaskName (MgtTasksBase.self b) = "" \/
   MgtTasksBase.isNewTaskBeingAdded (MgtTasksBase.self b) = true ->
   MgtTasksBase.addTask_begin b = (b, MgtTasksBase.Finished)).
Proof.
  split.
  - intros H.
    assert (G : addTask_begin w = (w, Returned)).
    { unfold addTask_begin. destruct H as [-> | ->]; simpl.
      - rewrite orb_true_r. reflexivity.
      - reflexivity. }
    split; [exact G |]. intros answer. unfold addTask. rewrite G. reflexivity.
  - intros H. unfold MgtTasksBase.addTask_begin. destruct H as [-> | ->]; simpl.
    + rewrite orb_true_r. reflexivity.
    + reflexivity.
Qed.



Lemma addTask_begin_passes w :
  _newTaskBeingAdded (self w) = false ->
  _newTaskName (self w) <> "" ->
  addTask_begin w =
    match _currentList (self w) with
    | None => (addTask_finally (onSelf (set_newTaskBeingAdded true) w), Threw TypeError)
    | Some l =>
        let c := createTodoTask (TodoTaskList.id l) (_newTaskName (self w)) in
        (issue c (onSelf (set_newTaskBeingAdded true) w), Awaits c)
    end.
Proof.
  intros Hflag Hname. unfold addTask_begin. rewrite Hflag.
  apply String.eqb_neq in Hname. rewrite Hname. reflexivity.
Qed.



(** *** removeTask *)

Lemma removeTask_begin_sends w taskId l :
  _currentList (self w) = Some l ->
  let c := deleteTodoTask (TodoTaskList.id l) taskId in
  removeTask_begin w taskId =
    (issue c (onSelf (fun c => set_hiddenTasks (_hiddenTasks c ++ [taskId]) c) w),
     Awaits c).
Proof. intros Hl. unfold removeTask_begin. simpl. rewrite Hl. reflexivity. Qed.

(** The continuation of [removeTask], in whatever state the answer finds
    the component, provided the task list is there. *)
Lemma removeTask_resume_success w taskId ts :
  _tasks (self w) = Some ts ->
  exists w',
    removeTask_resume w taskId (Fulfilled tt) = (w', Fulfilled tt) /\
    store w' = store w /\ calls w' = calls w /\
    _tasks (self w') =
      Some (List.filter (holds (store w) (fun t => negb (TodoTask.id t =? taskId))) ts) /\
    _hiddenTasks (self w') =
      List.filter (fun id => negb (id =? taskId)) (_hiddenTasks (self w)) /\
    _loadingTasks (self w') = _loadingTasks (self w).
Proof.
  intros H. unfold removeTask_resume. rewrite H. eexists. repeat split.
Qed.

Lemma removeTask_resume_failure w taskId e :
  removeTask_resume w taskId (Rejected e) = (w, Rejected e).
Proof. reflexivity. Qed.




(** *** updateTaskStatus *)

(** The continuation of [updateTaskStatus] on success. *)
Lemma updateTaskStatus_resume_success w t' ts :
  _tasks (self w) = Some ts ->
  exists w',
    updateTaskStatus_resume w (Fulfilled t') = (w', Fulfilled tt) /\
    store w' = store w ++ [t'] /\ calls w' = calls w /\
    _loadingTasks (self w') =
      List.filter (fun id => negb (id =? TodoTask.id t')) (_loadingTasks (self w)) /\
    _hiddenTasks (self w') = _hiddenTasks (self w).
Proof.
  intros H. unfold updateTaskStatus_resume, alloc. simpl. rewrite H.
  eexists. repeat split.
Qed.

(** While [loadTaskList] has [_tasks] at [null], an answer that arrives
    makes the continuation throw where it reads the list: markers stay, and
    [addTask] does not add the task (its [finally] block runs all the same). *)
Lemma answer_without_task_list w taskId t' :
  _tasks (self w) = None ->
  removeTask_resume w taskId (Fulfilled tt) = (w, Rejected TypeError) /\
  updateTaskStatus_resume w (Fulfilled t') = (snd (alloc t' w), Rejected TypeError) /\
  addTask_resume w (Fulfilled t') = (addTask_finally (snd (alloc t' w)), Rejected TypeError).
Proof.
  intros H. unfold removeTask_resume, updateTaskStatus_resume, addTask_resume, alloc.
  simpl. rewrite H. repeat split.
Qed.

Lemma updateTaskStatus_resume_failure w e :
  updateTaskStatus_resume w (Rejected e) = (w, Rejected e).
Proof. reflexivity. Qed.

(** C1, as the code has it. When the gateway call of an [updateTaskStatus]
    fails, the method ends at the rejected call: the task keeps the status
    the toggle requested, its id stays in [_loadingTasks] where it was
    appended once before the call, and nothing else has changed but the
    record of the call. *)
Theorem failed_toggle_leaves_flip_and_marker w task taskStatus t l e :
  store w !! task = Some t ->
  _currentList (self w) = Some l ->
  exists w',
    updateTaskStatus w task taskStatus (Rejected e) = Some (w', Rejected e) /\
    store w' !! task = Some (TodoTask.withStatus (Member taskStatus) t) /\
    store w' = <[task := TodoTask.withStatus (Member taskStatus) t]> (store w) /\
    _loadingTasks (self w') = _loadingTasks (self w) ++ [TodoTask.id t] /\
    _tasks (self w') = _tasks (self w) /\
    _hiddenTasks (self w') = _hiddenTasks (self w) /\
    calls w' = calls w ++ [updateTodoTask (TodoTaskList.id l) (TodoTask.id t) task] /\
    stateUpdates w' = stateUpdates w.
Proof.
  intros Ht Hl. unfold updateTaskStatus.
  rewrite (updateTaskStatus_begin_sends w task taskStatus t l Ht Hl). cbv zeta.
  rewrite updateTaskStatus_resume_failure.
  eexists. split; [reflexivity |]. simpl. split.
  - apply list_lookup_insert_eq. eapply lookup_lt_Some, Ht.
  - repeat split.
Qed.

(** C2, as the code has it. A toggle appends the task's id to
    [_loadingTasks], and a removal appends the id to [_hiddenTasks], before
    the gateway call goes out: the call is issued from the state that
    already bears the marker.  When the call succeeds (the task list being
    loaded and, for a toggle, the returned task bearing the same id) every
    occurrence of the id is filtered out of the list and the other ids stay.
    When the call fails the method ends there and the id stays in the list. *)
Theorem pending_marker_lifecycle w :
  (forall task t l taskStatus,
     store w !! task = Some t ->
     _currentList (self w) = Some l ->
     (exists marked c,
        updateTaskStatus_begin w task taskStatus = Some (issue c marked, Awaits c) /\
        _loadingTasks (self marked) = _loadingTasks (self w) ++ [TodoTask.id t] /\
        calls marked = calls w) /\
     (forall t' ts,
        TodoTask.id t' = TodoTask.id t ->
        _tasks (self w) = Some ts ->
        exists w',
          updateTaskStatus w task taskStatus (Fulfilled t') = Some (w', Fulfilled tt) /\
          ~ In (TodoTask.id t) (_loadingTasks (self w')) /\
          (forall id, id <> TodoTask.id t ->
                      (In id (_loadingTasks (self w')) <-> In id (_loadingTasks (self w))))) /\
     (forall e,
        exists w',
          updateTaskStatus w task taskStatus (Rejected e) = Some (w', Rejected e) /\
          _loadingTasks (self w') = _loadingTasks (self w) ++ [TodoTask.id t])) /\
  (forall taskId l,
     _currentList (self w) = Some l ->
     (exists marked c,
        removeTask_begin w taskId = (issue c marked, Awaits c) /\
        _hiddenTasks (self marked) = _hiddenTasks (self w) ++ [taskId] /\
        calls marked = calls w) /\
     (forall ts,
        _tasks (self w) = Some ts ->
        exists w',
          removeTask w taskId (Fulfilled tt) = (w', Fulfilled tt) /\
          ~ In taskId (_hiddenTasks (self w')) /\
          (forall id, id <> taskId ->
                      (In id (_hiddenTasks (self w')) <-> In id (_hiddenTasks (self w))))) /\
     (forall e,
        exists w',
          removeTask w taskId (Rejected e) = (w', Rejected e) /\
          _hiddenTasks (self w') = _hiddenTasks (self w) ++ [taskId])).
Proof.
  split.
  - intros task t l taskStatus Ht Hl.
    pose proof (updateTaskStatus_begin_sends w task taskStatus t l Ht Hl) as B.
    cbv zeta in B. split; [| split].
    + eexists _, _. split; [exact B |]. split; reflexivity.
    + intros t' ts Hid Hts. unfold updateTaskStatus. rewrite B.
      set (w1 := issue _ _).
      destruct (updateTaskStatus_resume_success w1 t' ts Hts)
        as (w' & E & _ & _ & Hloading & _).
      exists w'. split; [rewrite E; reflexivity |]. rewrite Hloading, Hid.
      apply (without_appended (TodoTask.id t) (_loadingTasks (self w))).
    + intros e. unfold updateTaskStatus. rewrite B, updateTaskStatus_resume_failure.
      eexists. split; reflexivity.
  - intros taskId l Hl.
    pose proof (removeTask_begin_sends w taskId l Hl) as B. cbv zeta in B.
    split; [| split].
    + eexists _, _. split; [exact B |]. split; reflexivity.
    + intros ts Hts. unfold removeTask. rewrite B.
      set (w1 := issue _ _).
      destruct (removeTask_resume_success w1 taskId ts Hts)
        as (w' & E & _ & _ & _ & Hhidden & _).
      exists w'. split; [exact E |]. rewrite Hhidden.
      apply (without_appended taskId (_hiddenTasks (self w))).
    + intros e. unfold removeTask. rewrite B, removeTask_resume_failure.
      eexists. split; reflexivity.
Qed.

(** C3, as the code has it. Neither the handler nor [updateTaskStatus]
    looks at [_loadingTasks]: a click on the check control of a task whose
    update is pending is handled like any other.  It writes the status it
    requests into the task, appends the id to [_loadingTasks] once more and
    sends a further update call. *)
Theorem pending_task_click_is_processed w e task t l :
  readOnly (self w) = false ->
  store w !! task = Some t ->
  _currentList (self w) = Some l ->
  In (TodoTask.id t) (_loadingTasks (self w)) ->
  exists w',
    handleTaskCheckClick w e task = Some (w', preventDefault (stopPropagation e)) /\
    store w' !! task =
      Some (TodoTask.withStatus
              (Member (if isCompleted (TodoTask.status t) then notStarted else completed))
              t) /\
    _loadingTasks (self w') = _loadingTasks (self w) ++ [TodoTask.id t] /\
    calls w' = calls w ++ [updateTodoTask (TodoTaskList.id l) (TodoTask.id t) task].
Proof.
  intros Hro Ht Hl _.
  rewrite (handleTaskCheckClick_editable w e task t Hro Ht).
  rewrite (updateTaskStatus_begin_sends w task _ t l Ht Hl). cbv zeta.
  eexists. split; [reflexivity |]. simpl. split.
  - apply list_lookup_insert_eq. eapply lookup_lt_Some, Ht.
  - split; reflexivity.
Qed.

End TodoFacts.

(** ** The properties at the sample states *)

Module Scenarios.
Import TaskStatus MgtTodo TodoFacts.

(** A completed task is toggled and the gateway fails: the task is left
    with the requested status, its row is no longer a completed one, and
    its id is still in [_loadingTasks]. *)
Lemma failed_toggle_is_not_rolled_back :
  exists w',
    updateTaskStatus Samples.world 0 notStarted (Rejected GatewayError)
      = Some (w', Rejected GatewayError) /\
    TodoTask.status <$> store Samples.world !! 0 = Some (Name "completed") /\
    TodoTask.status <$> store w' !! 0 = Some (Member notStarted) /\
    TodoTask.status <$> store w' !! 0 <> TodoTask.status <$> store Samples.world !! 0 /\
    rowComplete <$> rows Samples.world !! 0 = Some true /\
    rowComplete <$> rows w' !! 0 = Some false /\
    _loadingTasks (self Samples.world) = [] /\
    In "1" (_loadingTasks (self w')).
Proof.
  eexists. split; [reflexivity |].
  repeat split; try reflexivity.
  - discriminate.
  - left. reflexivity.
Qed.

(** A removal and a toggle whose gateway calls fail both leave their marker
    behind: the task stays out of the rendered list although it is still in
    [_tasks], and the toggled task stays in [_loadingTasks]. *)
Lemma failed_call_leaves_marker :
  (exists w',
     removeTask Samples.world "1" (Rejected GatewayError) = (w', Rejected GatewayError) /\
     _hiddenTasks (self Samples.world) = [] /\
     _hiddenTasks (self w') = ["1"] /\
     _tasks (self w') = Some [0; 1] /\
     render_tasks w' = [1]) /\
  (exists w',
     updateTaskStatus Samples.world 0 notStarted (Rejected GatewayError)
       = Some (w', Rejected GatewayError) /\
     _loadingTasks (self Samples.world) = [] /\
     _loadingTasks (self w') = ["1"]).
Proof.
  split; eexists; (split; [reflexivity |]); repeat split.
Qed.

(** Two clicks on the same check control with no answer in between: the
    second is handled too.  The id is in [_loadingTasks] twice, the task's
    status has been overwritten again and two update calls are out. *)
Lemma second_click_is_not_rejected :
  handleTaskCheckClick Samples.world Samples.click 0
    = Some (Samples.toggling, preventDefault (stopPropagation Samples.click)) /\
  In "1" (_loadingTasks (self Samples.toggling)) /\
  exists w2,
    handleTaskCheckClick Samples.toggling Samples.click 0
      = Some (w2, preventDefault (stopPropagation Samples.click)) /\
    _loadingTasks (self w2) = ["1"; "1"] /\
    store w2 = [Samples.milk (Member completed); Samples.bread] /\
    calls w2 = [updateTodoTask "L1" "1" 0; updateTodoTask "L1" "1" 0].
Proof.
  split; [reflexivity |]. split; [left; reflexivity |].
  eexists. split; [reflexivity |]. repeat split.
Qed.

(** The amended C1 at the sample state. *)
Lemma failed_toggle_witness :
  exists w',
    updateTaskStatus Samples.world 0 notStarted (Rejected GatewayError)
      = Some (w', Rejected GatewayError) /\
    store w' !! 0 = Some (Samples.milk (Member notStarted)) /\
    _loadingTasks (self w') = ["1"].
Proof.
  destruct (failed_toggle_leaves_flip_and_marker Samples.world 0 notStarted
              (Samples.milk (Name "completed")) Samples.tasksList GatewayError
              eq_refl eq_refl)
    as (w' & E & S & _ & L & _).
  exists w'. split; [exact E |]. split; [exact S | exact L].
Defined.

(** The amended C2 at the sample state: a removal that succeeds and one that
    fails. *)
Lemma pending_marker_witness :
  (exists w',
     removeTask Samples.world "1" (Fulfilled tt) = (w', Fulfilled tt) /\
     ~ In "1" (_hiddenTasks (self w'))) /\
  (exists w',
     removeTask Samples.world "1" (Rejected GatewayError) = (w', Rejected GatewayError) /\
     _hiddenTasks (self w') = ["1"]).
Proof.
  destruct (pending_marker_lifecycle Samples.world) as [_ R].
  destruct (R "1" Samples.tasksList eq_refl) as (_ & Hok & Hfail).
  split.
  - destruct (Hok [0; 1] eq_refl) as (w' & E & H & _). exists w'. split; assumption.
  - destruct (Hfail GatewayError) as (w' & E & H). exists w'. split; assumption.
Defined.

(** The amended C3 at the sample state with the first update in flight. *)
Lemma pending_task_click_witness :
  exists w',
    handleTaskCheckClick Samples.toggling Samples.click 0
      = Some (w', preventDefault (stopPropagation Samples.click)) /\
    _loadingTasks (self w') = ["1"; "1"] /\
    calls w' = [updateTodoTask "L1" "1" 0; updateTodoTask "L1" "1" 0].
Proof.
  destruct (pending_task_click_is_processed Samples.toggling Samples.click 0
              (Samples.milk (Member notStarted)) Samples.tasksList
              eq_refl eq_refl eq_refl (or_introl eq_refl))
    as (w' & E & _ & L & K).
  exists w'. split; [exact E |]. split; [exact L | exact K].
Defined.

(** C4 at the sample states, whose drafts are empty. *)
Lemma addTask_guard_witness :
  addTask Samples.world (Fulfilled Samples.eggs) = (Samples.world, Fulfilled tt) /\
  MgtTasksBase.addTask_begin Samples.base = (Samples.base, MgtTasksBase.Finished).
Proof.
  destruct (addTask_guard_is_noop Samples.world Samples.base) as [T B].
  split.
  - apply (T (or_introl eq_refl)).
  - apply (B (or_introl eq_refl)).
Defined.




(** The handler of the check control at the read-only sample state. *)
Lemma read_only_check_click_witness :
  handleTaskCheckClick Samples.locked Samples.click 0
    = Some (Samples.locked, Samples.click).
Proof.
  apply read_only_check_click_is_inert. reflexivity.
Defined.

End Scenarios.

(** ** The new-task panel and the base [addTask] *)

Module PanelFacts.
Import TaskStatus MgtTodo MgtTodoLoad MgtTodoView.

(** X1. The [isNewTaskVisible] property of the to-do component reads back
    what was set; setting it twice is setting it once, and setting the
    value it has changes nothing.  The draft (title and due date) is cleared
    exactly when an open panel is closed, and is kept otherwise. *)
Theorem isNewTaskVisible_set_get (value : bool) (c : Component) :
  isNewTaskVisible (isNewTaskVisible_set value c) = value /\
  isNewTaskVisible_set value (isNewTaskVisible_set value c) = isNewTaskVisible_set value c /\
  isNewTaskVisible_set (isNewTaskVisible c) c = c /\
  _newTaskName (isNewTaskVisible_set value c)
    = (if isNewTaskVisible c && negb value then "" else _newTaskName c) /\
  _newTaskDueDate (isNewTaskVisible_set value c)
    = (if isNewTaskVisible c && negb value then None else _newTaskDueDate c).
Proof.
  unfold isNewTaskVisible_set, isNewTaskVisible, showNewTaskPanel, hideNewTaskPanel.
  destruct c as [ro ti ii hh ho tf vis adding ls ts hid loading done cur busy name due lid].
  destruct value, vis; simpl; repeat split.
Qed.

(** X2. The same property of the base class: it reads back what was set and
    is idempotent; the title is cleared exactly when an open panel is
    closed, and the submission flag is never touched. *)
Theorem base_isNewTaskVisible_set_get (value : bool) (c : MgtTasksBase.Component) :
  MgtTasksBase._isNewTaskVisible (MgtTasksBase.set_isNewTaskVisible value c) = value /\
  MgtTasksBase.set_isNewTaskVisible value (MgtTasksBase.set_isNewTaskVisible value c)
    = MgtTasksBase.set_isNewTaskVisible value c /\
  MgtTasksBase.set_isNewTaskVisible (MgtTasksBase._isNewTaskVisible c) c = c /\
  MgtTasksBase._newTaskName (MgtTasksBase.set_isNewTaskVisible value c)
    = (if MgtTasksBase._isNewTaskVisible c && negb value
       then "" else MgtTasksBase._newTaskName c) /\
  MgtTasksBase.isNewTaskBeingAdded (MgtTasksBase.set_isNewTaskVisible value c)
    = MgtTasksBase.isNewTaskBeingAdded c.
Proof.
  unfold MgtTasksBase.set_isNewTaskVisible, MgtTasksBase.clearNewTaskData.
  destruct c as [ro hh ho adding vis name].
  destruct value, vis; simpl; repeat split.
Qed.

(** Rendering the panel assigns to [_newTaskListId] at most. *)
Lemma renderNewTaskPanel_frame c :
  fst (renderNewTaskPanel c) = set_newTaskListId (_newTaskListId (fst (renderNewTaskPanel c))) c.
Proof.
  unfold renderNewTaskPanel. cbv zeta. simpl.
  destruct c as [ro ti ii hh ho tf vis adding ls ts hid loading done cur busy name due lid].
  simpl.
  destruct (List.filter _ ls) as [| first rest]; [reflexivity |].
  destruct (lid =? ""); reflexivity.
Qed.

Lemma renderNewTaskPanel_controls c :
  controls (snd (renderNewTaskPanel c))
  = if _newTaskBeingAdded c then NoControls else CancelAndAdd (_newTaskName c =? "").
Proof.
  unfold renderNewTaskPanel. cbv zeta. simpl.
  destruct c as [ro ti ii hh ho tf vis adding ls ts hid loading done cur busy name due lid].
  simpl.
  destruct (List.filter _ ls) as [| first rest]; [reflexivity |].
  destruct (lid =? ""); reflexivity.
Qed.

(** X3. The panel shows the Add control enabled exactly in the states in
    which [addTask] gets past its guard: with a submission in flight there
    are no controls, with an empty title the control is disabled, and in
    both cases [addTask] on the rendered component returns at once with
    nothing changed. *)
Theorem add_control_matches_guard (w : World) :
  let rendered := onSelf (fun c => fst (renderNewTaskPanel c)) w in
  let panel := snd (renderNewTaskPanel (self w)) in
  (controls panel = CancelAndAdd false <-> snd (addTask_begin rendered) <> Returned) /\
  (controls panel = NoControls <-> _newTaskBeingAdded (self w) = true) /\
  (controls panel = CancelAndAdd true <->
   _newTaskBeingAdded (self w) = false /\ _newTaskName (self w) = "") /\
  (controls panel <> CancelAndAdd false -> addTask_begin rendered = (rendered, Returned)).
Proof.
  cbv zeta.
  assert (F : _newTaskBeingAdded (fst (renderNewTaskPanel (self w)))
              = _newTaskBeingAdded (self w) /\
              _newTaskName (fst (renderNewTaskPanel (self w))) = _newTaskName (self w) /\
              _currentList (fst (renderNewTaskPanel (self w))) = _currentList (self w)).
  { rewrite renderNewTaskPanel_frame. repeat split. }
  destruct F as (Fa & Fn & Fc).
  pose proof (renderNewTaskPanel_controls (self w)) as P.
  rewrite P. unfold addTask_begin. cbn [self onSelf]. rewrite Fa, Fn.
  destruct (_newTaskBeingAdded (self w)) eqn:Ea; cbn [orb fst snd].
  - repeat split; intros; try discriminate; try congruence; try tauto;
      try (match goal with H : _ <> _ |- _ => now contradiction H end);
      try (match goal with H : _ /\ _ |- _ => destruct H; discriminate end).
  - destruct (String.eqb_spec (_newTaskName (self w)) "") as [En | En]; cbn [orb fst snd].
    + repeat split; intros; try discriminate; try congruence; try tauto;
        try (match goal with H : _ <> _ |- _ => now contradiction H end).
    + assert (N : snd (let w1 := onSelf (set_newTaskBeingAdded true)
                                   (onSelf (fun c => fst (renderNewTaskPanel c)) w) in
                       match _currentList (self w1) with
                       | Some l =>
                           let c := createTodoTask (TodoTaskList.id l) (_newTaskName (self w1)) in
                           (issue c w1, Awaits c)
                       | None => (addTask_finally w1, Threw TypeError)
                       end) <> Returned).
      { cbv zeta. destruct (_currentList _); simpl; discriminate. }
      repeat split; intros; try discriminate; try congruence; try tauto;
        try (match goal with H : _ <> _ |- _ => now contradiction H end).
Qed.

(** X4. A base [addTask] that gets past its guard calls the hook of the
    subclass once and asks for two updates; when the hook has settled the
    flag is reset and the panel closed, and the promise settles as the hook
    did.  The title is cleared only if the panel was open: the setter does
    nothing on a panel that is closed already. *)
Theorem base_addTask_runs_hook_once (created : Settled unit) (w : MgtTasksBase.World) :
  MgtTasksBase.isNewTaskBeingAdded (MgtTasksBase.self w) = false ->
  MgtTasksBase._newTaskName (MgtTasksBase.self w) <> "" ->
  let w' := fst (MgtPlanner.addTask_with created w) in
  snd (MgtPlanner.addTask_with created w) = created /\
  MgtTasksBase.creations w' = S (MgtTasksBase.creations w) /\
  MgtTasksBase.updates w' = S (S (MgtTasksBase.updates w)) /\
  MgtTasksBase.isNewTaskBeingAdded (MgtTasksBase.self w') = false /\
  MgtTasksBase._isNewTaskVisible (MgtTasksBase.self w') = false /\
  MgtTasksBase._newTaskName (MgtTasksBase.self w')
    = (if MgtTasksBase._isNewTaskVisible (MgtTasksBase.self w)
       then "" else MgtTasksBase._newTaskName (MgtTasksBase.self w)).
Proof.
  intros Hflag Hname. cbv zeta.
  unfold MgtPlanner.addTask_with, MgtTasksBase.addTask_begin.
  rewrite Hflag. apply String.eqb_neq in Hname. rewrite Hname. simpl.
  destruct w as [[ro hh ho adding vis name] u k]. simpl in *.
  unfold MgtTasksBase.set_isNewTaskVisible. simpl.
  destruct vis; simpl; repeat split.
Qed.

End PanelFacts.

(** ** Loading the lists and the tasks *)

Module LoadFacts.
Import TaskStatus MgtTodo MgtTodoLoad MgtTodoView.

(** The objects of an answered array are found at the locations handed
    out for them, in the order of the array. *)
Lemma seq_lookup_app (objs xs : list TodoTask.t) :
  Forall2 (fun r x => (objs ++ xs) !! r = Some x) (seq (length objs) (length xs)) xs.
Proof.
  revert objs. induction xs as [| x xs IH]; intros objs; simpl.
  - constructor.
  - constructor.
    + apply list_lookup_middle. reflexivity.
    + specialize (IH (objs ++ [x])).
      rewrite length_app, <- app_assoc in IH. simpl in IH.
      rewrite Nat.add_1_r in IH. exact IH.
Qed.

Lemma loadTaskList_resume_tasks w xs :
  exists w',
    loadTaskList_resume w (Fulfilled (Some xs)) = (w', Fulfilled tt) /\
    store w' = store w ++ xs /\
    _tasks (self w') = Some (seq (length (store w)) (length xs)) /\
    Forall2 (fun r x => store w' !! r = Some x) (seq (length (store w)) (length xs)) xs /\
    _isLoadingTasks (self w') = false /\
    _currentList (self w') = _currentList (self w) /\
    _hiddenTasks (self w') = _hiddenTasks (self w) /\
    _loadingTasks (self w') = _loadingTasks (self w).
Proof.
  unfold loadTaskList_resume, allocAll. eexists. split; [reflexivity |]. simpl.
  repeat split. apply seq_lookup_app.
Qed.

Lemma rows_without_tasks w : _tasks (self w) = None -> rows w = [].
Proof. intros H. unfold rows, render_tasks. rewrite H. reflexivity. Qed.

(** X5. [loadTaskList] switches the current list at once and shows no task
    row while the tasks are being fetched.  When the answer comes the task
    list holds the answered tasks, in the order of the answer, as new
    objects beside the old ones, and the loading flag is reset; the hidden
    and loading markers are carried over as they are.  When the fetch fails
    the component stays as it was while loading: flag set, no task row. *)
Theorem loadTaskList_replaces_tasks w list xs e :
  let w1 := fst (loadTaskList_begin w list) in
  let w2 := fst (loadTaskList_resume w1 (Fulfilled (Some xs))) in
  let w3 := fst (loadTaskList_resume w1 (Rejected e)) in
  snd (loadTaskList_begin w list) = getTodoTasks (TodoTaskList.id list) /\
  (_isLoadingTasks (self w1) = true /\ _currentList (self w1) = Some list /\
   rows w1 = []) /\
  (exists tasks,
     _tasks (self w2) = Some tasks /\
     Forall2 (fun r x => store w2 !! r = Some x) tasks xs /\
     (forall r x, store w !! r = Some x -> store w2 !! r = Some x)) /\
  (_isLoadingTasks (self w2) = false /\ _currentList (self w2) = Some list /\
   _hiddenTasks (self w2) = _hiddenTasks (self w) /\
   _loadingTasks (self w2) = _loadingTasks (self w)) /\
  (_isLoadingTasks (self w3) = true /\ _tasks (self w3) = None /\
   _currentList (self w3) = Some list /\ rows w3 = []).
Proof.
  cbv zeta. set (w1 := fst (loadTaskList_begin w list)).
  destruct (loadTaskList_resume_tasks w1 xs)
    as (w2 & E & Hstore & Htasks & Hobjs & Hflag & Hcur & Hhid & Hload).
  rewrite E. simpl.
  split; [reflexivity |]. split; [repeat split |]. split; [| split].
  - exists (seq (length (store w1)) (length xs)). split; [exact Htasks |].
    split; [exact Hobjs |]. intros r x Hr. rewrite Hstore.
    rewrite lookup_app_l; [exact Hr | eapply lookup_lt_Some, Hr].
  - rewrite Hflag, Hcur, Hhid, Hload. repeat split.
  - repeat split.
Qed.

(** X6. Two [loadTaskList] calls that overlap: the current list is that of
    the later call, the task list is that of the answer that comes last.
    If the answer to the earlier call is the last to come, the component
    shows the tasks of the earlier list under the later list, and after the
    first answer it no longer counts as loading although a fetch is out. *)
Theorem overlapping_loads_last_answer_wins w a b xa xb :
  let w1 := fst (loadTaskList_begin w a) in
  let w2 := fst (loadTaskList_begin w1 b) in
  let w3 := fst (loadTaskList_resume w2 (Fulfilled (Some xb))) in
  let w4 := fst (loadTaskList_resume w3 (Fulfilled (Some xa))) in
  _currentList (self w3) = Some b /\ _isLoadingTasks (self w3) = false /\
  _currentList (self w4) = Some b /\ _isLoadingTasks (self w4) = false /\
  exists tasks,
    _tasks (self w4) = Some tasks /\
    Forall2 (fun r x => store w4 !! r = Some x) tasks xa.
Proof.
  cbv zeta. set (w2 := fst (loadTaskList_begin (fst (loadTaskList_begin w a)) b)).
  destruct (loadTaskList_resume_tasks w2 xb)
    as (w3 & E3 & _ & _ & _ & Hflag3 & Hcur3 & _).
  rewrite E3. cbn [fst].
  destruct (loadTaskList_resume_tasks w3 xa)
    as (w4 & E4 & _ & Htasks & Hobjs & Hflag4 & Hcur4 & _).
  rewrite E4. cbn [fst].
  rewrite Hflag3, Hflag4, Hcur4, Hcur3.
  repeat split. eexists. split; [exact Htasks | exact Hobjs].
Qed.

(** X7. [loadState] asks the gateway for lists only when a provider is
    signed in and no list is loaded yet: for the one list named by
    [targetId] when that is set, for all lists otherwise.  In every other
    case it ends at once; it never touches tasks, markers, lists or the
    current list, and marks the initial load as done exactly when it is
    signed in and finds lists loaded. *)
Theorem loadState_reads_only_when_empty signedIn w :
  let w' := fst (loadState_begin signedIn w) in
  let step := snd (loadState_begin signedIn w) in
  ((exists c, step = LoadAwaits c) <-> signedIn = true /\ _lists (self w) = []) /\
  (forall c, step = LoadAwaits c ->
             c = if targetId (self w) =? "" then getTodoTaskLists
                 else getTodoTaskList (targetId (self w))) /\
  (step = LoadDone \/ exists c, step = LoadAwaits c) /\
  store w' = store w /\ calls w' = calls w /\
  _tasks (self w') = _tasks (self w) /\ _lists (self w') = _lists (self w) /\
  _currentList (self w') = _currentList (self w) /\
  _hiddenTasks (self w') = _hiddenTasks (self w) /\
  _loadingTasks (self w') = _loadingTasks (self w) /\
  _hasDoneInitialLoad (self w')
    = match _lists (self w) with
      | [] => _hasDoneInitialLoad (self w)
      | _ :: _ => signedIn || _hasDoneInitialLoad (self w)
      end.
Proof.
  cbv zeta. unfold loadState_begin.
  destruct signedIn; simpl; destruct (_lists (self w)) as [| l ls] eqn:El; simpl;
    repeat split; eauto; intros; try congruence;
    try (match goal with H : exists _, _ |- _ => destruct H; discriminate end);
    try (match goal with H : _ /\ _ |- _ => destruct H; discriminate end).
Qed.

(** X8. From a non-empty answer [loadState] keeps the lists as answered and
    makes one of them current: the first one whose id is [initialId] when
    [initialId] is set and some list has it, the first list otherwise.  It
    then fetches the tasks of that list; the initial load is not yet marked
    as done. *)
Theorem loadState_picks_initial_list w a first rest :
  listsOf a = Some (first :: rest) ->
  exists chosen w',
    loadState_lists w (Fulfilled a)
      = (w', LoadAwaits (getTodoTasks (TodoTaskList.id chosen))) /\
    _lists (self w') = first :: rest /\
    _currentList (self w') = Some chosen /\
    In chosen (first :: rest) /\
    (initialId (self w) <> "" ->
     (exists l, In l (first :: rest) /\ TodoTaskList.id l = initialId (self w)) ->
     List.find (fun l => TodoTaskList.id l =? initialId (self w)) (first :: rest)
       = Some chosen /\
     TodoTaskList.id chosen = initialId (self w)) /\
    (initialId (self w) = "" \/
     (forall l, In l (first :: rest) -> TodoTaskList.id l <> initialId (self w)) ->
     chosen = first) /\
    _isLoadingTasks (self w') = true /\ _tasks (self w') = None /\
    _hasDoneInitialLoad (self w') = _hasDoneInitialLoad (self w) /\
    store w' = store w.
Proof.
  intros Ha. unfold loadState_lists. rewrite Ha. cbv zeta.
  set (found := if initialId (self w) =? "" then None
                else List.find (fun l => TodoTaskList.id l =? initialId (self w))
                       (first :: rest)).
  exists (match found with Some l => l | None => first end).
  eexists. split; [reflexivity |]. simpl.
  split; [reflexivity |]. split; [reflexivity |].
  assert (Hfound : forall l, found = Some l ->
                     In l (first :: rest) /\ TodoTaskList.id l = initialId (self w)).
  { intros l. unfold found. destruct (initialId (self w) =? ""); [discriminate |].
    intros F. apply find_some in F as [Hin Hid]. apply String.eqb_eq in Hid. auto. }
  split; [| split; [| split]].
  - destruct found as [l |]; [apply (Hfound l eq_refl) | now left].
  - intros Hset (l & Hin & Hid). unfold found in *.
    apply String.eqb_neq in Hset. rewrite Hset in *.
    destruct (List.find _ (first :: rest)) as [l' |] eqn:F.
    + split; [exact F |]. apply (Hfound l' eq_refl).
    + exfalso. apply (find_none _ _ F) in Hin. apply String.eqb_neq in Hin. contradiction.
  - intros [Hempty | Hnone]; unfold found.
    + rewrite Hempty. reflexivity.
    + destruct (initialId (self w) =? ""); [reflexivity |].
      destruct (List.find _ (first :: rest)) as [l' |] eqn:F; [| reflexivity].
      apply find_some in F as [Hin Hid]. apply String.eqb_eq in Hid.
      exfalso. exact (Hnone l' Hin Hid).
  - repeat split.
Qed.

(** X9. When the gateway has no list to give, [loadState] marks the
    initial load as done with the lists and the current list as they were;
    if no list was loaded, the next [loadState] of a signed-in component
    asks for the lists again. *)
Theorem loadState_without_lists w a :
  listsOf a = None \/ listsOf a = Some [] ->
  let w' := fst (loadState_lists w (Fulfilled a)) in
  snd (loadState_lists w (Fulfilled a)) = LoadDone /\
  _hasDoneInitialLoad (self w') = true /\
  _currentList (self w') = _currentList (self w) /\
  _lists (self w') = _lists (self w) /\
  _tasks (self w') = _tasks (self w) /\
  (_lists (self w) = [] -> exists c, snd (loadState_begin true w') = LoadAwaits c).
Proof.
  intros H. cbv zeta. unfold loadState_lists.
  destruct H as [-> | ->]; simpl; repeat split;
    intros El; unfold loadState_begin; simpl; rewrite El; eauto.
Qed.

(** X20. When the fetch of the lists or of the tasks fails during the
    initial load, [loadState] ends there with nothing changed by the answer
    and the load not marked as done: the header goes on showing the loading
    placeholder, whatever the base component says of its own loading. *)
Theorem failed_initial_load_keeps_placeholder w e isLoadingState :
  _hasDoneInitialLoad (self w) = false ->
  loadState_lists w (Rejected e) = (w, LoadThrew e) /\
  loadState_tasks w (Rejected e) = (w, Rejected e) /\
  renderHeader isLoadingState (self (fst (loadState_lists w (Rejected e))))
    = Value LoadingHeader /\
  renderHeader isLoadingState (self (fst (loadState_tasks w (Rejected e))))
    = Value LoadingHeader.
Proof.
  intros Hdone. split; [reflexivity |]. split; [reflexivity |].
  simpl. unfold renderHeader. rewrite Hdone, orb_true_r. split; reflexivity.
Qed.

End LoadFacts.

(** ** Toggling and removing, further cases *)

Module ToggleFacts.
Import TaskStatus MgtTodo MgtTodoLoad MgtTodoView StatusFacts TodoFacts.

(** *** [findIndex] and [filter] *)

Lemma findIndex_first {A} (p : A -> bool) (xs : list A) i x :
  xs !! i = Some x ->
  p x = true ->
  (forall j y, j < i -> xs !! j = Some y -> p y = false) ->
  findIndex p xs = Some i.
Proof.
  revert i. induction xs as [| y ys IH]; intros i Hx Hp Hbefore.
  - discriminate.
  - destruct i as [| i]; simpl in *.
    + injection Hx as ->. rewrite Hp. reflexivity.
    + rewrite (Hbefore 0 y); [| lia | reflexivity].
      rewrite (IH i Hx Hp); [reflexivity |].
      intros j z Hj Hz. apply (Hbefore (S j) z); [lia | exact Hz].
Qed.

Lemma findIndex_none {A} (p : A -> bool) (xs : list A) :
  (forall x, In x xs -> p x = false) -> findIndex p xs = None.
Proof.
  induction xs as [| y ys IH]; intros Hall; simpl; [reflexivity |].
  rewrite (Hall y (or_introl eq_refl)), IH; [reflexivity |].
  intros x Hx. apply Hall. now right.
Qed.

Lemma filter_all {A} (p : A -> bool) (xs : list A) :
  (forall x, In x xs -> p x = true) -> List.filter p xs = xs.
Proof.
  induction xs as [| y ys IH]; intros Hall; simpl; [reflexivity |].
  rewrite (Hall y (or_introl eq_refl)), IH; [reflexivity |].
  intros x Hx. apply Hall. now right.
Qed.

(** The store when the answer to a toggle has arrived: every object that
    was there is there, under the same id. *)
Lemma toggled_store_ids objs task t v t' r x :
  objs !! task = Some t ->
  objs !! r = Some x ->
  exists x',
    (<[task := TodoTask.withStatus v t]> objs ++ [t']) !! r = Some x' /\
    TodoTask.id x' = TodoTask.id x.
Proof.
  intros Ht Hx.
  assert (Hr : r < length (<[task := TodoTask.withStatus v t]> objs)).
  { rewrite length_insert. eapply lookup_lt_Some, Hx. }
  rewrite (lookup_app_l _ _ _ Hr).
  destruct (decide (task = r)) as [<- | Hne].
  - exists (TodoTask.withStatus v t). split.
    + apply list_lookup_insert_eq. eapply lookup_lt_Some, Ht.
    + assert (x = t) as -> by congruence. reflexivity.
  - exists x. split; [| reflexivity]. rewrite list_lookup_insert_ne; assumption.
Qed.

(** *** The row of a task being toggled *)

(** X10. From the moment a toggle starts, whatever status it asks for and
    whether or not the call could be sent, the row of the task is a loading
    one: it shows the spinner, not the check mark, and it is not drawn as
    completed, because the status written into the task is a member of the
    enum and not the name the row's test looks for. *)
Theorem toggled_row_shows_spinner w task taskStatus t hasDetails :
  store w !! task = Some t ->
  exists w' step t1,
    updateTaskStatus_begin w task taskStatus = Some (w', step) /\
    store w' !! task = Some t1 /\
    rowOf w' t1
      = {| key := TodoTask.id t; rowComplete := false; rowLoading := true |} /\
    forall row,
      renderTaskView false hasDetails (self w') t1 = Value (DefaultTask row) ->
      checkContent row = Spinner /\ checkLoading row = true /\
      checkComplete row = false /\ taskComplete row = false.
Proof.
  intros Ht.
  destruct (updateTaskStatus_begin_marks w task taskStatus t Ht)
    as (w' & step & E & Hstore & Hload & _).
  exists w', step, (TodoTask.withStatus (Member taskStatus) t).
  split; [exact E |].
  assert (L : includes (TodoTask.id t) (_loadingTasks (self w')) = true).
  { apply includes_In. rewrite Hload. apply in_or_app. right. now left. }
  split; [| split].
  - rewrite Hstore. apply list_lookup_insert_eq. eapply lookup_lt_Some, Ht.
  - unfold rowOf. simpl. rewrite L. reflexivity.
  - intros row. unfold renderTaskView. simpl. rewrite L.
    destruct hasDetails; [| destruct (_currentList (self w'))];
      intros H; try discriminate; injection H as <-; repeat split.
Qed.

(** *** The answer to a toggle *)

(** X11. A toggle that succeeds puts the returned task in the place of the
    toggled one: when the toggled task is the first of the list with its id
    and the answer bears that id, the list keeps its length and its other
    entries, the entry at that position is the returned object, whose row
    is no longer loading and shows the returned status, and one state
    update has been asked for. *)
Theorem successful_toggle_replaces_in_place w task taskStatus t l ts t' i :
  store w !! task = Some t ->
  _currentList (self w) = Some l ->
  _tasks (self w) = Some ts ->
  ts !! i = Some task ->
  TodoTask.id t' = TodoTask.id t ->
  (forall j r, j < i -> ts !! j = Some r ->
               exists x, store w !! r = Some x /\ TodoTask.id x <> TodoTask.id t) ->
  exists w',
    updateTaskStatus w task taskStatus (Fulfilled t') = Some (w', Fulfilled tt) /\
    _tasks (self w') = Some (<[i := length (store w)]> ts) /\
    store w' !! length (store w) = Some t' /\
    rowOf w' t'
      = {| key := TodoTask.id t; rowComplete := isCompleted (TodoTask.status t');
           rowLoading := false |} /\
    stateUpdates w' = S (stateUpdates w).
Proof.
  intros Ht Hl Hts Hi Hid Hbefore. unfold updateTaskStatus.
  rewrite (updateTaskStatus_begin_sends w task taskStatus t l Ht Hl). cbv zeta.
  unfold updateTaskStatus_resume, alloc. cbn [self onSelf issue write store fst snd].
  change (_tasks
            (set_loadingTasks (_loadingTasks (self w) ++ [TodoTask.id t]) (self w)))
    with (_tasks (self w)).
  rewrite Hts.
  set (objs := <[task := TodoTask.withStatus (Member taskStatus) t]> (store w) ++ [t']).
  assert (F : findIndex (holds objs (fun x => TodoTask.id x =? TodoTask.id t')) ts = Some i).
  { destruct (toggled_store_ids (store w) task t (Member taskStatus) t' task t Ht Ht)
      as (x' & Hx' & Hidx').
    apply (findIndex_first _ ts i task Hi).
    - unfold holds. fold objs in Hx'. rewrite Hx'.
      apply String.eqb_eq. congruence.
    - intros j r Hj Hr. destruct (Hbefore j r Hj Hr) as (x & Hx & Hne).
      destruct (toggled_store_ids (store w) task t (Member taskStatus) t' r x Ht Hx)
        as (x1 & Hx1 & Hidx1).
      unfold holds. fold objs in Hx1. rewrite Hx1.
      apply String.eqb_neq. congruence. }
  rewrite F. eexists. split; [reflexivity |].
  cbn [self onSelf requestStateUpdate store stateUpdates assignAt].
  split; [rewrite length_insert; reflexivity |]. split; [| split; [| reflexivity]].
  - unfold objs. apply list_lookup_middle. rewrite length_insert. reflexivity.
  - unfold rowOf. rewrite Hid. f_equal. simpl. rewrite <- Hid.
    apply includes_false, without_absent.
Qed.

(** X12. A toggle whose answer bears an id that no task of the list has,
    the toggled one included: the list is left as it is, the toggled task
    keeps the status that was asked for, and its id stays in
    [_loadingTasks], since only the id of the answer is filtered out. *)
Theorem toggle_answer_for_unknown_task w task taskStatus t l ts t' :
  store w !! task = Some t ->
  _currentList (self w) = Some l ->
  _tasks (self w) = Some ts ->
  TodoTask.id t' <> TodoTask.id t ->
  (forall r, In r ts -> exists x, store w !! r = Some x /\ TodoTask.id x <> TodoTask.id t') ->
  exists w',
    updateTaskStatus w task taskStatus (Fulfilled t') = Some (w', Fulfilled tt) /\
    _tasks (self w') = Some ts /\
    store w' !! task = Some (TodoTask.withStatus (Member taskStatus) t) /\
    In (TodoTask.id t) (_loadingTasks (self w')).
Proof.
  intros Ht Hl Hts Hid Hnone. unfold updateTaskStatus.
  rewrite (updateTaskStatus_begin_sends w task taskStatus t l Ht Hl). cbv zeta.
  unfold updateTaskStatus_resume, alloc. cbn [self onSelf issue write store fst snd].
  change (_tasks
            (set_loadingTasks (_loadingTasks (self w) ++ [TodoTask.id t]) (self w)))
    with (_tasks (self w)).
  rewrite Hts.
  set (objs := <[task := TodoTask.withStatus (Member taskStatus) t]> (store w) ++ [t']).
  assert (F : findIndex (holds objs (fun x => TodoTask.id x =? TodoTask.id t')) ts = None).
  { apply findIndex_none. intros r Hr. destruct (Hnone r Hr) as (x & Hx & Hne).
    destruct (toggled_store_ids (store w) task t (Member taskStatus) t' r x Ht Hx)
      as (x1 & Hx1 & Hidx1).
    unfold holds. fold objs in Hx1. rewrite Hx1. apply String.eqb_neq. congruence. }
  rewrite F. eexists. split; [reflexivity |].
  cbn [self onSelf requestStateUpdate store assignAt]. split; [reflexivity |]. split.
  - unfold objs. rewrite lookup_app_l.
    + apply list_lookup_insert_eq. eapply lookup_lt_Some, Ht.
    + rewrite length_insert. eapply lookup_lt_Some, Ht.
  - simpl. apply In_without. split; [| congruence].
    apply in_or_app. right. now left.
Qed.

(** *** Removing *)

(** X13. A removal hides at once: as soon as [removeTask] has been called,
    before any answer and even if no call could be sent, [render] leaves
    out every task with that id and shows the other tasks it showed. *)
Theorem removeTask_hides_at_once w taskId r :
  In r (render_tasks (fst (removeTask_begin w taskId))) <->
  In r (render_tasks w) /\ forall t, store w !! r = Some t -> TodoTask.id t <> taskId.
Proof.
  assert (E : self (fst (removeTask_begin w taskId))
              = set_hiddenTasks (_hiddenTasks (self w) ++ [taskId]) (self w) /\
              store (fst (removeTask_begin w taskId)) = store w).
  { unfold removeTask_begin. simpl. destruct (_currentList (self w)); split; reflexivity. }
  destruct E as [Eself Estore].
  rewrite !render_tasks_In, Eself, Estore. simpl. split.
  - intros (ts & t & Hts & Hin & Ht & Hh & Hf). split.
    + exists ts, t. repeat split; try assumption.
      intros H. apply Hh, in_or_app. now left.
    + intros t0 Ht0 Hid. assert (t0 = t) as -> by congruence.
      apply Hh, in_or_app. right. left. now symmetry.
  - intros [(ts & t & Hts & Hin & Ht & Hh & Hf) Hid].
    exists ts, t. repeat split; try assumption.
    intros H. apply in_app_or in H as [H | [H | []]]; [now apply Hh |].
    apply (Hid t Ht). now symmetry.
Qed.

(** X14. A removal of an id that no task of the list has still sends the
    delete call; when it succeeds the task list is what it was and the id
    is gone from [_hiddenTasks]. *)
Theorem removeTask_of_unknown_id w taskId l ts :
  _currentList (self w) = Some l ->
  _tasks (self w) = Some ts ->
  (forall r, In r ts -> exists x, store w !! r = Some x /\ TodoTask.id x <> taskId) ->
  exists w',
    removeTask w taskId (Fulfilled tt) = (w', Fulfilled tt) /\
    _tasks (self w') = Some ts /\
    ~ In taskId (_hiddenTasks (self w')) /\
    calls w' = calls w ++ [deleteTodoTask (TodoTaskList.id l) taskId].
Proof.
  intros Hl Hts Hnone. unfold removeTask.
  rewrite (removeTask_begin_sends w taskId l Hl). cbv zeta.
  set (w1 := issue _ _).
  destruct (removeTask_resume_success w1 taskId ts Hts)
    as (w' & E & _ & Hcalls & Htasks & Hhidden & _).
  exists w'. split; [exact E |]. split; [| split].
  - rewrite Htasks. f_equal. apply filter_all. intros r Hr.
    destruct (Hnone r Hr) as (x & Hx & Hne). apply holds_true. exists x.
    split; [exact Hx |]. apply negb_true_iff, String.eqb_neq, Hne.
  - rewrite Hhidden. apply without_absent.
  - rewrite Hcalls. reflexivity.
Qed.

(** *** Without a current list *)

(** X15. With no list current, reading [this._currentList.id] throws.  A
    toggle and a removal have by then done their optimistic step, which
    stays: the task bears the status asked for and is marked as loading, the
    id is hidden, and no call is sent.  [addTask] throws inside its [try],
    so its [finally] block still closes and clears the panel. *)
Theorem actions_without_current_list w :
  _currentList (self w) = None ->
  (forall task t taskStatus answer,
     store w !! task = Some t ->
     exists w',
       updateTaskStatus w task taskStatus answer = Some (w', Rejected TypeError) /\
       calls w' = calls w /\
       store w' !! task = Some (TodoTask.withStatus (Member taskStatus) t) /\
       _loadingTasks (self w') = _loadingTasks (self w) ++ [TodoTask.id t]) /\
  (forall taskId answer,
     exists w',
       removeTask w taskId answer = (w', Rejected TypeError) /\
       calls w' = calls w /\
       _tasks (self w') = _tasks (self w) /\
       _hiddenTasks (self w') = _hiddenTasks (self w) ++ [taskId]) /\
  (forall answer,
     _newTaskBeingAdded (self w) = false ->
     _newTaskName (self w) <> "" ->
     exists w',
       addTask w answer = (w', Rejected TypeError) /\
       calls w' = calls w /\
       _tasks (self w') = _tasks (self w) /\
       _isNewTaskVisible (self w') = false /\ _newTaskName (self w') = "" /\
       _newTaskBeingAdded (self w') = false).
Proof.
  intros Hl. split; [| split].
  - intros task t taskStatus answer Ht.
    unfold updateTaskStatus, updateTaskStatus_begin. rewrite Ht. simpl. rewrite Hl.
    eexists. split; [reflexivity |]. simpl. split; [reflexivity |]. split; [| reflexivity].
    apply list_lookup_insert_eq. eapply lookup_lt_Some, Ht.
  - intros taskId answer. unfold removeTask, removeTask_begin. simpl. rewrite Hl.
    eexists. split; [reflexivity |]. repeat split.
  - intros answer Hflag Hname. unfold addTask.
    rewrite (addTask_begin_passes w Hflag Hname), Hl.
    eexists. split; [reflexivity |]. repeat split.
Qed.

End ToggleFacts.

(** ** The header, the panel and the clicks *)

Module ViewFacts.
Import TaskStatus MgtTodo MgtTodoLoad MgtTodoView TodoFacts.

(** *** Clicks *)

(** X16. What a click on the check control, arriving unstopped, does to
    the row's own click event: in read-only mode the control's handler lets the event through,
    the row's handler fires one [taskClick] for the task and the component
    is unchanged; otherwise the control's handler stops the event, so no
    [taskClick] is fired for it.  Either way the event ends up stopped and
    cancelled. *)
Theorem check_click_and_taskClick w fired e task :
  propagationStopped e = false ->
  match readOnly (self w) with
  | true =>
      clickCheck w fired e task
      = Some (w, fired ++ [{| eventName := "taskClick"; detail := task |}],
              preventDefault (stopPropagation e))
  | false =>
      (forall t, store w !! task = Some t ->
                 exists w', clickCheck w fired e task
                            = Some (w', fired, preventDefault (stopPropagation e)) /\
                            handleTaskCheckClick w e task
                            = Some (w', preventDefault (stopPropagation e))) /\
      (forall w' fired' e', clickCheck w fired e task = Some (w', fired', e') ->
                            fired' = fired)
  end.
Proof.
  intros Hfresh. destruct (readOnly (self w)) eqn:Hro.
  - unfold clickCheck, handleTaskCheckClick. rewrite Hro. simpl.
    rewrite Hfresh. reflexivity.
  - assert (S : forall w1 e1, handleTaskCheckClick w e task = Some (w1, e1) ->
                              e1 = preventDefault (stopPropagation e)).
    { unfold handleTaskCheckClick. rewrite Hro. simpl.
      destruct (store w !! task) as [t |]; [| discriminate].
      destruct (if isCompleted (TodoTask.status t)
                then updateTaskStatus_begin w task notStarted
                else updateTaskStatus_begin w task completed) as [[w2 step] |];
        [| discriminate].
      intros w1 e1 H. injection H as _ <-. reflexivity. }
    split.
    + intros t Ht.
      destruct (updateTaskStatus_begin_marks w task
                  (if isCompleted (TodoTask.status t) then notStarted else completed) t Ht)
        as (w' & step & E & _).
      exists w'.
      assert (H : handleTaskCheckClick w e task
                  = Some (w', preventDefault (stopPropagation e))).
      { rewrite (handleTaskCheckClick_editable w e task t Hro Ht), E. reflexivity. }
      split; [| exact H]. unfold clickCheck. rewrite H. reflexivity.
    + intros w' fired' e'. unfold clickCheck.
      destruct (handleTaskCheckClick w e task) as [[w1 e1] |] eqn:H; [| discriminate].
      rewrite (S w1 e1 eq_refl). simpl. intros K. injection K as _ <- _. reflexivity.
Qed.

(** *** The header *)





(** *** The new-task panel *)

(** X19. Drawing the new-task panel changes no field but [_newTaskListId],
    and that one only while it is empty: with a list current and among the
    loaded lists it becomes the id of the current list.  Drawing the panel
    a second time changes nothing more and draws the same panel. *)
Theorem renderNewTaskPanel_settles c :
  let c1 := fst (renderNewTaskPanel c) in
  c1 = set_newTaskListId (_newTaskListId c1) c /\
  (_newTaskListId c <> "" -> c1 = c) /\
  (forall cur l,
     _currentList c = Some cur -> _newTaskListId c = "" ->
     In l (_lists c) -> TodoTaskList.id l = TodoTaskList.id cur ->
     _newTaskListId c1 = TodoTaskList.id cur) /\
  renderNewTaskPanel c1 = (c1, snd (renderNewTaskPanel c)).
Proof.
  cbv zeta.
  destruct c as [ro ti ii hh ho tf vis adding ls ts hid loading done cur busy name due lid].
  unfold renderNewTaskPanel. cbv zeta.
  cbn [_currentList _newTaskListId _lists _newTaskName _newTaskBeingAdded fst snd].
  set (keep := fun list : TodoTaskList.t =>
                 match cur with
                 | Some cur0 => TodoTaskList.id list =? TodoTaskList.id cur0
                 | None => TodoTaskList.id list =? lid
                 end).
  destruct (List.filter keep ls) as [| first rest] eqn:F.
  - split; [reflexivity |]. split; [reflexivity |]. split.
    + intros cur0 l Hcur _ Hin Hid. exfalso.
      assert (K : In l (List.filter keep ls)).
      { apply filter_In. split; [exact Hin |]. unfold keep. rewrite Hcur.
        apply String.eqb_eq, Hid. }
      rewrite F in K. exact K.
    + cbn [_currentList _newTaskListId _lists _newTaskName _newTaskBeingAdded].
      fold keep. rewrite F. reflexivity.
  - assert (Hfirst : keep first = true).
    { assert (K : In first (List.filter keep ls)) by (rewrite F; now left).
      apply filter_In in K as [_ K]. exact K. }
    destruct (String.eqb_spec lid "") as [-> | Hlid].
    + cbn [set_newTaskListId _currentList _newTaskListId _lists _newTaskName
             _newTaskBeingAdded].
      split; [reflexivity |]. split; [intros H; now contradiction H |]. split.
      * intros cur0 l Hcur _ _ _. unfold keep in Hfirst. rewrite Hcur in Hfirst.
        apply String.eqb_eq, Hfirst.
      * destruct cur as [cur0 |].
        -- fold keep. rewrite F.
           destruct (TodoTaskList.id first =? ""); reflexivity.
        -- unfold keep in Hfirst. apply String.eqb_eq in Hfirst.
           rewrite Hfirst. fold keep. rewrite F, Hfirst. reflexivity.
    + split; [reflexivity |]. split; [reflexivity |]. split.
      * intros cur0 l _ Hempty. contradiction.
      * cbn [_currentList _newTaskListId _lists _newTaskName _newTaskBeingAdded].
        fold keep. rewrite F.
        apply String.eqb_neq in Hlid. rewrite Hlid. reflexivity.
Qed.

(** *** render as a whole *)






(** *** The check control in read-only mode *)

(** C10, as the code has it. In read-only mode a click on the check control
    of a task changes nothing of the component state and sends nothing to
    the gateway.  The handler of the control itself neither stops nor
    cancels the event; the click then reaches the handler of the row, which
    fires [taskClick] for the task and stops and cancels the event. *)
Theorem read_only_check_click_changes_no_state w fired e task :
  readOnly (self w) = true ->
  handleTaskCheckClick w e task = Some (w, e) /\
  (forall w' fired' e', clickCheck w fired e task = Some (w', fired', e') -> w' = w) /\
  (propagationStopped e = false ->
   clickCheck w fired e task
   = Some (w, fired ++ [{| eventName := "taskClick"; detail := task |}],
           preventDefault (stopPropagation e))).
Proof.
  intros Hro.
  assert (H : handleTaskCheckClick w e task = Some (w, e)).
  { unfold handleTaskCheckClick. rewrite Hro. reflexivity. }
  split; [exact H |]. unfold clickCheck. rewrite H. split.
  - intros w' fired' e'. destruct (propagationStopped e); simpl;
      intros K; injection K as <- _ _; reflexivity.
  - intros Hfresh. rewrite Hfresh. reflexivity.
Qed.

End ViewFacts.

(** ** The further properties at the sample states *)

Module MoreScenarios.
Import TaskStatus MgtTodo MgtTodoLoad MgtTodoView.
Import PanelFacts LoadFacts ToggleFacts ViewFacts.

(** X4 for the planner, whose hook does nothing, on an open panel. *)
Lemma base_addTask_witness :
  snd (MgtPlanner.addTask MoreSamples.baseDraft) = Fulfilled tt /\
  MgtTasksBase.creations (fst (MgtPlanner.addTask MoreSamples.baseDraft)) = 1 /\
  MgtTasksBase._newTaskName
    (MgtTasksBase.self (fst (MgtPlanner.addTask MoreSamples.baseDraft))) = "".
Proof.
  assert (N : MgtTasksBase._newTaskName (MgtTasksBase.self MoreSamples.baseDraft) <> "")
    by discriminate.
  destruct (base_addTask_runs_hook_once MgtPlanner.createNewTask MoreSamples.baseDraft
              eq_refl N)
    as (R & K & _ & _ & _ & T).
  split; [exact R |]. split; [exact K | exact T].
Defined.

(** X8 on the constructed component, whose [initialId] names the second of
    two lists. *)
Lemma loadState_picks_witness :
  exists w',
    loadState_lists MoreSamples.constructed
      (Fulfilled (AllLists (Some [Samples.tasksList; MoreSamples.shopping])))
    = (w', LoadAwaits (getTodoTasks "L2")) /\
    _currentList (self w') = Some MoreSamples.shopping.
Proof.
  assert (N : initialId (self MoreSamples.constructed) <> "") by discriminate.
  destruct (loadState_picks_initial_list MoreSamples.constructed
              (AllLists (Some [Samples.tasksList; MoreSamples.shopping]))
              Samples.tasksList [MoreSamples.shopping] eq_refl)
    as (chosen & w' & E & _ & C & _ & P & _).
  destruct (P N (ex_intro _ MoreSamples.shopping
                   (conj (or_intror (or_introl eq_refl)) eq_refl))) as [F _].
  injection F as <-.
  exists w'. split; [exact E | exact C].
Defined.

(** X9 on the constructed component. *)
Lemma loadState_without_lists_witness :
  snd (loadState_lists MoreSamples.constructed (Fulfilled (AllLists None))) = LoadDone /\
  _hasDoneInitialLoad
    (self (fst (loadState_lists MoreSamples.constructed (Fulfilled (AllLists None)))))
  = true.
Proof.
  destruct (loadState_without_lists MoreSamples.constructed (AllLists None)
              (or_introl eq_refl))
    as (S & D & _).
  split; [exact S | exact D].
Defined.

(** X20 on the constructed component. *)
Lemma failed_initial_load_witness :
  renderHeader false
    (self (fst (loadState_tasks MoreSamples.constructed (Rejected GatewayError))))
  = Value LoadingHeader.
Proof.
  destruct (failed_initial_load_keeps_placeholder MoreSamples.constructed GatewayError
              false eq_refl)
    as (_ & _ & _ & H).
  exact H.
Defined.

(** X10 on the first sample task. *)
Lemma toggled_row_witness :
  exists w' step t1,
    updateTaskStatus_begin Samples.world 0 completed = Some (w', step) /\
    rowOf w' t1 = {| key := "1"; rowComplete := false; rowLoading := true |}.
Proof.
  destruct (toggled_row_shows_spinner Samples.world 0 completed
              (Samples.milk (Name "completed")) false eq_refl)
    as (w' & step & t1 & E & _ & R & _).
  exists w', step, t1. split; [exact E | exact R].
Defined.

(** X11: the first sample task is toggled and the service confirms. *)
Lemma successful_toggle_witness :
  exists w',
    updateTaskStatus Samples.world 0 notStarted
      (Fulfilled (Samples.milk (Name "notStarted"))) = Some (w', Fulfilled tt) /\
    _tasks (self w') = Some [2; 1] /\
    store w' !! 2 = Some (Samples.milk (Name "notStarted")).
Proof.
  assert (B : forall j r, j < 0 -> [0; 1] !! j = Some r ->
                exists x, store Samples.world !! r = Some x /\
                          TodoTask.id x <> TodoTask.id (Samples.milk (Name "completed")))
    by (intros j r Hj; lia).
  destruct (successful_toggle_replaces_in_place Samples.world 0 notStarted
              (Samples.milk (Name "completed")) Samples.tasksList [0; 1]
              (Samples.milk (Name "notStarted")) 0
              eq_refl eq_refl eq_refl eq_refl eq_refl B)
    as (w' & E & T & S & _).
  exists w'. split; [exact E |]. split; [exact T | exact S].
Defined.

(** X12: the answer to the toggle of the first sample task bears the id of
    no task. *)
Lemma unknown_answer_witness :
  exists w',
    updateTaskStatus Samples.world 0 notStarted (Fulfilled Samples.eggs)
    = Some (w', Fulfilled tt) /\
    _tasks (self w') = Some [0; 1] /\
    In "1" (_loadingTasks (self w')).
Proof.
  assert (N : TodoTask.id Samples.eggs <> TodoTask.id (Samples.milk (Name "completed")))
    by discriminate.
  assert (A : forall r, In r [0; 1] ->
                exists x, store Samples.world !! r = Some x /\
                          TodoTask.id x <> TodoTask.id Samples.eggs).
  { intros r [<- | [<- | []]]; eexists; (split; [reflexivity | discriminate]). }
  destruct (toggle_answer_for_unknown_task Samples.world 0 notStarted
              (Samples.milk (Name "completed")) Samples.tasksList [0; 1] Samples.eggs
              eq_refl eq_refl eq_refl N A)
    as (w' & E & T & _ & L).
  exists w'. split; [exact E |]. split; [exact T | exact L].
Defined.

(** X14: an id that neither sample task has. *)
Lemma removeTask_unknown_witness :
  exists w',
    removeTask Samples.world "9" (Fulfilled tt) = (w', Fulfilled tt) /\
    _tasks (self w') = Some [0; 1] /\
    calls w' = [deleteTodoTask "L1" "9"].
Proof.
  assert (A : forall r, In r [0; 1] ->
                exists x, store Samples.world !! r = Some x /\ TodoTask.id x <> "9").
  { intros r [<- | [<- | []]]; eexists; (split; [reflexivity | discriminate]). }
  destruct (removeTask_of_unknown_id Samples.world "9" Samples.tasksList [0; 1]
              eq_refl eq_refl A)
    as (w' & E & T & _ & K).
  exists w'. split; [exact E |]. split; [exact T | exact K].
Defined.

(** X15 on the sample state with no current list. *)
Lemma without_current_list_witness :
  (exists w',
     updateTaskStatus MoreSamples.adrift 0 notStarted (Fulfilled MoreSamples.milkDone)
     = Some (w', Rejected TypeError) /\
     calls w' = [] /\ _loadingTasks (self w') = ["1"]) /\
  (exists w',
     removeTask MoreSamples.adrift "1" (Fulfilled tt) = (w', Rejected TypeError) /\
     calls w' = [] /\ _hiddenTasks (self w') = ["1"]).
Proof.
  destruct (actions_without_current_list MoreSamples.adrift eq_refl) as (T & R & _).
  split.
  - destruct (T 0 (Samples.milk (Name "completed")) notStarted
                (Fulfilled MoreSamples.milkDone) eq_refl)
      as (w' & E & K & _ & L).
    exists w'. split; [exact E |]. split; [exact K | exact L].
  - destruct (R "1" (Fulfilled tt)) as (w' & E & K & _ & H).
    exists w'. split; [exact E |]. split; [exact K | exact H].
Defined.

(** X16 in read-only mode. *)
Lemma read_only_taskClick_witness :
  clickCheck Samples.locked [] Samples.click 0
  = Some (Samples.locked, [{| eventName := "taskClick"; detail := 0 |}],
          preventDefault (stopPropagation Samples.click)).
Proof.
  exact (check_click_and_taskClick Samples.locked [] Samples.click 0 eq_refl).
Defined.

(** *** States in which the specification's statements fail *)





(** In read-only mode the click on the check control ends up stopped and
    cancelled, by the handler of the row. *)
Lemma read_only_click_ends_stopped :
  propagationStopped Samples.click = false /\
  exists e',
    clickCheck Samples.locked [] Samples.click 0
    = Some (Samples.locked, [{| eventName := "taskClick"; detail := 0 |}], e') /\
    propagationStopped e' = true /\ defaultPrevented e' = true.
Proof.
  split; [reflexivity |]. eexists. split; [reflexivity |]. split; reflexivity.
Qed.

(** *** The amended claims at the sample states *)


(** C10 at the read-only sample state. *)
Lemma read_only_click_witness :
  handleTaskCheckClick Samples.locked Samples.click 0
  = Some (Samples.locked, Samples.click) /\
  clickCheck Samples.locked [] Samples.click 0
  = Some (Samples.locked, [{| eventName := "taskClick"; detail := 0 |}],
          preventDefault (stopPropagation Samples.click)).
Proof.
  destruct (read_only_check_click_changes_no_state Samples.locked [] Samples.click 0
              eq_refl)
    as (H & _ & K).
  split; [exact H | exact (K eq_refl)].
Defined.

End MoreScenarios.
